(** * Grafana Agent charm: reconciliation core

    A shallow embedding of [src/grafana_agent.py] (the class
    [GrafanaAgentCharm]) and of the host hooks of [src/machine_charm.py],
    with the properties of its configuration synthesis, rule
    synchronisation and reconciliation pass. *)

From stdpp Require Import gmap strings list fin_maps.
From Stdlib Require Import Ascii QArith.

Set Warnings "-register-all".
Local Open Scope string_scope.
Local Open Scope Z_scope.
Local Open Scope list_scope.

(** ** Python values

    [pyval] is a plain value as [yaml.safe_load] produces and [yaml.dump]
    consumes. A [dict] is a finite map: equality of two [VDict] does not
    see the order in which the keys were inserted, which is what Python's
    [==] on dictionaries computes. *)

Inductive pyval :=
  | VNone
  | VBool (b : bool)
  | VInt (z : Z)
  | VStr (s : string)
  | VList (l : list pyval)
  | VDict (m : gmap string pyval).

Fixpoint pyval_eq_dec (x y : pyval) : Decision (x = y).
Proof.
  refine
    (match x, y with
     | VNone, VNone => left _
     | VBool a, VBool b => cast_if (decide (a = b))
     | VInt a, VInt b => cast_if (decide (a = b))
     | VStr a, VStr b => cast_if (decide (a = b))
     | VList a, VList b =>
         cast_if (@decide (a = b) (@list_eq_dec pyval pyval_eq_dec a b))
     | VDict a, VDict b =>
         cast_if (@decide (a = b) (@gmap_eq_dec string _ _ pyval pyval_eq_dec a b))
     | _, _ => right _
     end); congruence.
Defined.

#[global] Instance pyval_eq : EqDecision pyval := pyval_eq_dec.

(** Identity of a mutable record on the Python heap. *)
Definition loc := nat.

(** The records a provider hands out (one [dict] per endpoint) live on the
    heap and are mutated in place. *)
Abbreviation heap_t := (gmap loc (gmap string pyval)).

(** [pyobj] is an object graph under construction: plain values, lists and
    dictionaries built by the charm, and references to heap records that
    are shared with the providers. *)
Inductive pyobj :=
  | OVal (v : pyval)
  | ORef (l : loc)
  | OList (l : list pyobj)
  | ODict (m : gmap string pyobj).

(** The record a reference designates. *)
Definition deref (h : heap_t) (l : loc) : pyval :=
  match h !! l with Some r => VDict r | None => VNone end.

(** The value an object graph has when it is compared or serialised: every
    reference is read from the heap at that moment. *)
Fixpoint snapshot (h : heap_t) (o : pyobj) : pyval :=
  match o with
  | OVal v => v
  | ORef l => deref h l
  | OList l => VList (snapshot h <$> l)
  | ODict m => VDict (snapshot h <$> m)
  end.

(** ** Exceptions and unit status *)

Inductive exn_class :=
  | FileNotFoundError
  | FileExistsError
  | NotADirectoryError
  | IsADirectoryError
  | KeyError
  | PathError
  | APIError
  | YAMLError
  | GrafanaAgentReloadError
  | OtherException.

#[global] Instance exn_class_eq : EqDecision exn_class.
Proof. solve_decision. Defined.

(** An exception: its class and [str(e)]. *)
Record exn := Exn { exn_cls : exn_class; exn_str : string }.

#[global] Instance exn_eq : EqDecision exn.
Proof. solve_decision. Defined.

Inductive result (A : Type) :=
  | Ok (a : A)
  | Raise (e : exn).
Arguments Ok {A} a.
Arguments Raise {A} e.

#[global] Instance result_eq {A} `{EqDecision A} : EqDecision (result A).
Proof. solve_decision. Defined.

Inductive status :=
  | ActiveStatus
  | BlockedStatus (message : string)
  | MaintenanceStatus (message : string)
  | WaitingStatus (message : string)
  | UnknownStatus.

#[global] Instance status_eq : EqDecision status.
Proof. solve_decision. Defined.

(** ** The charm-local file system

    [shutil.rmtree], [shutil.copytree] and [Path.write_text] act on
    directories of the charm. A directory is a finite map from entry names
    to nodes; the store maps the path of each top-level directory to its
    tree. Entry names are atomic: the model does not interpret a path
    separator inside a name. *)

Inductive node :=
  | File (text : string)
  | Dir (entries : gmap string node).

Abbreviation fs_t := (gmap string node).

(** ** Calls observed during a pass *)

Inductive call :=
  | CallGenerateConfig
  | CallReadFile (path : string)
  | CallWriteFile (path text : string)
  | CallRestart
  | CallReloadFunc
  | CallPost (url : string).

#[global] Instance call_eq : EqDecision call.
Proof. solve_decision. Defined.

(** ** Constants of [grafana_agent.py] *)

Definition CONFIG_PATH : string := "/etc/grafana-agent.yaml".
Definition REMOTE_WRITE_RELATION_NAME : string := "send-remote-write".
Definition _promtail_positions : string := "/run/promtail-positions.yaml".
Definition _http_listen_port : Z := 3500.
Definition _grpc_listen_port : Z := 3600.

Record RulesMapping := { src : string; dest : string }.

(** ** What the charm reads from the model and from its providers *)

Record relation := { relation_id : nat; units : list string }.

Record charm := {
  model_name : string;
  model_uuid : string;
  app_name : string;
  unit_name : string;
  meta_name : string;
  (** [self.model.config] *)
  model_config : gmap string pyval;
  (** [self.model.relations]: declared relation names and their relations *)
  relations : gmap string (list relation);
  (** [self._remote_write.endpoints]: the records of the metrics provider *)
  remote_write_endpoints : list loc;
  (** [self._loki_consumer.loki_endpoints]: the records of the logs provider *)
  loki_endpoints : list loc;
  (** the hooks a subclass overrides *)
  metrics_jobs : pyval;
  _additional_integrations : gmap string pyval;
  _additional_log_configs : list pyval;
}.

(** ** Interfaces outside [grafana_agent.py] *)

(** [yaml.safe_load] and [yaml.dump]. *)
Class Yaml := {
  yaml_safe_load : string → result pyval;
  yaml_dump : pyval → string;
}.

(** The abstract methods of [GrafanaAgentCharm] that reach the host where
    the agent runs; [W] is the state of that host. *)
Class AgentHost (W : Type) := {
  is_ready : charm → W → bool;
  read_file : string → W → result string;
  write_file : string → string → W → result unit * W;
  restart : W → result unit * W;
}.

(** [requests.Session.post] through an [HTTPAdapter] mounted with a
    [Retry] policy. *)
Record Retry := {
  total : Z;
  backoff_factor : Q;
  status_forcelist : list Z;
}.

Class Http (W : Type) := {
  session_post : Retry → string → W → result unit * W;
}.

(** ** State of the charm process and its monad *)

Section Core.
Context {W : Type}.

Record state := State {
  world : W;
  heap : heap_t;
  fs : fs_t;
  unit_status : status;
  calls : list call;
}.

Definition set_world (w : W) (s : state) : state :=
  State w (heap s) (fs s) (unit_status s) (calls s).
Definition set_heap (h : heap_t) (s : state) : state :=
  State (world s) h (fs s) (unit_status s) (calls s).
Definition set_fs (f : fs_t) (s : state) : state :=
  State (world s) (heap s) f (unit_status s) (calls s).
Definition set_status (st : status) (s : state) : state :=
  State (world s) (heap s) (fs s) st (calls s).
Definition log_call (c : call) (s : state) : state :=
  State (world s) (heap s) (fs s) (unit_status s) (calls s ++ [c]).

(** A computation either returns or raises, and leaves a state. *)
Definition M (A : Type) : Type := state → result A * state.

Definition ret {A} (a : A) : M A := λ s, (Ok a, s).
Definition raise {A} (e : exn) : M A := λ s, (Raise e, s).
Definition bind {A B} (m : M A) (k : A → M B) : M B :=
  λ s, match m s with
       | (Ok a, s') => k a s'
       | (Raise e, s') => (Raise e, s')
       end.
(** [try: m except <classes>: handler] *)
Definition try_except {A} (m : M A) (catches : exn → bool) (handler : exn → M A) : M A :=
  λ s, match m s with
       | (Ok a, s') => (Ok a, s')
       | (Raise e, s') => if catches e then handler e s' else (Raise e, s')
       end.
Definition modify (f : state → state) : M unit := λ s, (Ok tt, f s).
Definition gets {A} (f : state → A) : M A := λ s, (Ok (f s), s).
Definition lift_result {A} (r : result A) : M A := λ s, (r, s).

End Core.

Arguments state W : clear implicits.
Arguments M W A : clear implicits.

Declare Scope charm_scope.
Delimit Scope charm_scope with charm.
Notation "'let!' x ':=' m 'in' k" := (bind m (λ x, k))
  (at level 10, x pattern, m at level 100, k at level 200) : charm_scope.
Notation "m ;;; k" := (bind m (λ _, k))
  (at level 100, right associativity) : charm_scope.
Local Open Scope charm_scope.

(** Truth value of a Python list. *)
Definition truthy {A} (l : list A) : bool :=
  match l with [] => false | _ :: _ => true end.

(** ** Config synthesis *)

Section Synthesis.
Context {W : Type}.
Variable self : charm.

(** [self.model.config.get("tls_insecure_skip_verify")] *)
Definition tls_insecure_skip_verify : pyval :=
  default VNone (model_config self !! "tls_insecure_skip_verify").

(** [endpoint["tls_config"] = {"insecure_skip_verify": ...}] on one record. *)
Definition set_tls_config (record : gmap string pyval) : gmap string pyval :=
  <["tls_config" := VDict {["insecure_skip_verify" := tls_insecure_skip_verify]}]> record.

Definition enrich_heap (endpoints : list loc) (h : heap_t) : heap_t :=
  foldl (λ h l, alter set_tls_config l h) h endpoints.

Definition _enrich_endpoints : M W (list loc * list loc) :=
  let prometheus_endpoints := remote_write_endpoints self in
  let loki_endpoints := loki_endpoints self in
  modify (λ s, set_heap (enrich_heap (prometheus_endpoints ++ loki_endpoints) (heap s)) s) ;;;
  ret (prometheus_endpoints, loki_endpoints).

Definition _instance_topology : list (string * string) :=
  [("juju_model", model_name self);
   ("juju_model_uuid", model_uuid self);
   ("juju_application", app_name self);
   ("juju_unit", unit_name self)].

Definition _instance_name : string :=
  String.concat "_" (snd <$> _instance_topology).

Definition relabel_default (target replacement : string) : pyval :=
  VDict {[ "target_label" := VStr target;
           "regex" := VStr "(.*)";
           "replacement" := VStr replacement ]}.

Definition relabel_address (target replacement : string) : pyval :=
  VDict {[ "source_labels" := VList [VStr "__address__"];
           "target_label" := VStr target;
           "replacement" := VStr replacement ]}.

Definition agent_integration : pyval :=
  let job_name :=
    "juju_" +:+ model_name self +:+ "_" +:+ model_uuid self +:+ "_"
      +:+ app_name self +:+ "_self-monitoring" in
  VDict {[ "enabled" := VBool true;
           "relabel_configs" :=
             VList [ relabel_default "job" job_name;
                     relabel_default "instance" _instance_name;
                     relabel_address "juju_charm" (meta_name self);
                     relabel_address "juju_model" (model_name self);
                     relabel_address "juju_model_uuid" (model_uuid self);
                     relabel_address "juju_application" (app_name self);
                     relabel_address "juju_unit" (unit_name self) ] ]}.

(** The entries the dictionary display of [_integrations_config] writes
    itself, before [**self._additional_integrations] is merged in. *)
Definition integrations_own (prometheus_endpoints : list loc) : gmap string pyobj :=
  {[ "agent" := OVal agent_integration;
     "prometheus_remote_write" := OList (ORef <$> prometheus_endpoints) ]}.

(** The dictionary [conf] of [_integrations_config]: later keys win, so an
    entry of [_additional_integrations] replaces an own entry of the same
    name. *)
Definition integrations_conf (prometheus_endpoints : list loc) : pyobj :=
  ODict ((OVal <$> _additional_integrations self)
           ∪ integrations_own prometheus_endpoints).

Definition _integrations_config : M W pyobj :=
  let! (prometheus_endpoints, _) := _enrich_endpoints in
  ret (integrations_conf prometheus_endpoints).

Definition push_api_server (loki_endpoints : list loc) : pyobj :=
  ODict {[ "name" := OVal (VStr "push_api_server");
           "clients" := OList (ORef <$> loki_endpoints);
           "positions" := OVal (VDict {[ "filename" := VStr _promtail_positions ]});
           "scrape_configs" :=
             OVal (VList [ VDict {[ "job_name" := VStr "loki";
                                    "loki_push_api" :=
                                      VDict {[ "server" :=
                                        VDict {[ "http_listen_port" := VInt _http_listen_port;
                                                 "grpc_listen_port" := VInt _grpc_listen_port ]} ]} ]} ]) ]}.

(** The list [configs] of [_loki_config] and the dictionary it returns. *)
Definition loki_configs (loki : list loc) : list pyobj :=
  let configs := [] in
  let configs :=
    if truthy (loki_endpoints self)
    then configs ++ [push_api_server loki]
    else configs in
  configs ++ (OVal <$> _additional_log_configs self).

Definition loki_conf (loki : list loc) : pyobj :=
  let configs := loki_configs loki in
  if truthy configs then ODict {[ "configs" := OList configs ]} else ODict ∅.

Definition _loki_config : M W pyobj :=
  let! (_, loki) := _enrich_endpoints in
  ret (loki_conf loki).

(** The dictionary [config] of [_generate_config]. *)
Definition config_document (integrations : pyobj) (scrape_configs : pyval)
    (prometheus_endpoints : list loc) (logs : pyobj) : pyobj :=
  ODict {[ "server" := OVal (VDict {[ "log_level" := VStr "info" ]});
           "integrations" := integrations;
           "metrics" :=
             ODict {[ "wal_directory" := OVal (VStr "/tmp/agent/data");
                      "configs" :=
                        OList [ ODict {[ "name" := OVal (VStr "agent_scraper");
                                         "scrape_configs" := OVal scrape_configs;
                                         "remote_write" :=
                                           OList (ORef <$> prometheus_endpoints) ]} ] ]};
           "logs" := logs ]}.

Definition _generate_config : M W pyobj :=
  modify (log_call CallGenerateConfig) ;;;
  let! (prometheus_endpoints, _) := _enrich_endpoints in
  let! integrations := _integrations_config in
  let scrape_configs := metrics_jobs self in
  let! logs := _loki_config in
  ret (config_document integrations scrape_configs prometheus_endpoints logs).

End Synthesis.

(** ** Rule synchronisation *)

(** A value that may be wrapped in zero-argument callables. *)
Inductive maybe_func (A : Type) :=
  | Real (a : A)
  | Callable (f : unit → maybe_func A).
Arguments Real {A} a.
Arguments Callable {A} f.

Fixpoint _recurse_call_chain {A} (maybe_func : maybe_func A) : A :=
  match maybe_func with
  | Callable f => _recurse_call_chain (f tt)
  | Real a => a
  end.

(** ["juju_{}.rules".format(topology_identifier)] *)
Definition rules_file_name (topology_identifier : string) : string :=
  "juju_" +:+ topology_identifier +:+ ".rules".

Section Sync.
Context {W : Type} `{!Yaml}.

Definition rmtree (path : string) : M W unit := λ s,
  match fs s !! path with
  | Some (Dir _) => (Ok tt, set_fs (delete path (fs s)) s)
  | Some (File _) => (Raise (Exn NotADirectoryError path), s)
  | None => (Raise (Exn FileNotFoundError path), s)
  end.

Definition copytree (source destination : string) : M W unit := λ s,
  match fs s !! source with
  | Some (Dir entries) =>
      match fs s !! destination with
      | Some _ => (Raise (Exn FileExistsError destination), s)
      | None => (Ok tt, set_fs (<[destination := Dir entries]> (fs s)) s)
      end
  | Some (File _) => (Raise (Exn NotADirectoryError source), s)
  | None => (Raise (Exn FileNotFoundError source), s)
  end.

(** [pathlib.Path(directory, name).write_text(text)] *)
Definition write_text (directory name text : string) : M W unit := λ s,
  match fs s !! directory with
  | Some (Dir entries) =>
      match entries !! name with
      | Some (Dir _) => (Raise (Exn IsADirectoryError name), s)
      | _ => (Ok tt, set_fs (<[directory := Dir (<[name := File text]> entries)]> (fs s)) s)
      end
  | Some (File _) => (Raise (Exn NotADirectoryError directory), s)
  | None => (Raise (Exn FileNotFoundError directory), s)
  end.

Fixpoint for_each {A} (l : list A) (body : A → M W unit) : M W unit :=
  match l with
  | [] => ret tt
  | x :: l' => body x ;;; for_each l' body
  end.

Definition update_alerts_rules (alerts_func : maybe_func (gmap string pyval))
    (reload_func : M W unit) (mapping : RulesMapping) : M W unit :=
  let rules := _recurse_call_chain alerts_func in
  rmtree (dest mapping) ;;;
  copytree (src mapping) (dest mapping) ;;;
  for_each (map_to_list rules) (λ item,
    let '(topology_identifier, rule) := item in
    write_text (dest mapping) (rules_file_name topology_identifier) (yaml_dump rule)) ;;;
  modify (log_call CallReloadFunc) ;;;
  reload_func.

End Sync.

(** ** The reconciliation pass *)

Section Reconciler.
Context {W : Type} `{!Yaml} `{!AgentHost W} `{!Http W}.
Variable self : charm.

Definition host_is_ready : M W bool := gets (λ s, is_ready self (world s)).

Definition host_read_file (path : string) : M W string := λ s,
  (read_file path (world s), log_call (CallReadFile path) s).

Definition host_write_file (path text : string) : M W unit := λ s,
  let '(r, w) := write_file path text (world s) in
  (r, set_world w (log_call (CallWriteFile path text) s)).

Definition host_restart : M W unit := λ s,
  let '(r, w) := restart (world s) in
  (r, set_world w (log_call CallRestart s)).

Definition http_post (retries : Retry) (url : string) : M W unit := λ s,
  let '(r, w) := session_post retries url (world s) in
  (r, set_world w (log_call (CallPost url) s)).

(** [self.model.relations[name]] *)
Definition relations_getitem (name : string) : M W (list relation) :=
  match relations self !! name with
  | Some l => ret l
  | None => raise (Exn KeyError name)
  end.

Definition _update_status : M W unit :=
  (match relations self !! "metrics-endpoint" with
   | Some relations =>
       if truthy relations then
         if bool_decide (length relations ≠ 0%nat) then
           let! remote_write := relations_getitem REMOTE_WRITE_RELATION_NAME in
           if bool_decide (length remote_write = 0%nat) then
             modify (set_status (WaitingStatus "no related Prometheus remote-write"))
           else ret tt
         else ret tt
       else ret tt
   | None => ret tt
   end) ;;;
  (let! ready := host_is_ready in
   if negb ready then
     modify (set_status (WaitingStatus "waiting for the agent to start"))
   else ret tt) ;;;
  modify (set_status ActiveStatus).

(** [config == old_config], both read at the moment of the comparison. *)
Definition config_eq (config : pyobj) (old_config : pyval) : M W bool :=
  gets (λ s, bool_decide (snapshot (heap s) config = old_config)).

(** [yaml.dump(config)] *)
Definition dump_config (config : pyobj) : M W string :=
  gets (λ s, yaml_dump (snapshot (heap s) config)).

Definition is_missing_file (e : exn) : bool :=
  match exn_cls e with
  | FileNotFoundError | PathError => true
  | _ => false
  end.

Definition is_reload_or_api_error (e : exn) : bool :=
  match exn_cls e with
  | GrafanaAgentReloadError | APIError => true
  | _ => false
  end.

(** The first [try] of [_update_config]: [old_config] stays [None] when
    reading raises [FileNotFoundError] or [PathError]. *)
Definition read_old_config : M W pyval :=
  let old_config := VNone in
  try_except
    (let! text := host_read_file CONFIG_PATH in
     lift_result (yaml_safe_load text))
    is_missing_file
    (λ _, ret old_config).

(** The second [try] of [_update_config]. *)
Definition apply_config (config : pyobj) (old_config : pyval) : M W unit :=
  try_except
    (let! unchanged := config_eq config old_config in
     if negb unchanged then
       let! text := dump_config config in
       host_write_file CONFIG_PATH text ;;;
       host_restart ;;;
       modify (set_status ActiveStatus)
     else ret tt)
    is_reload_or_api_error
    (λ e, match exn_cls e with
          | GrafanaAgentReloadError => modify (set_status (BlockedStatus (exn_str e)))
          | _ => modify (set_status (WaitingStatus (exn_str e)))
          end).

Definition _update_config : M W unit :=
  let! ready := host_is_ready in
  if negb ready then
    modify (set_status (WaitingStatus "waiting for agent to start"))
  else
    let! config := _generate_config self in
    let! old_config := read_old_config in
    let! unchanged := config_eq config old_config in
    if unchanged then
      modify (set_status ActiveStatus)
    else
      apply_config config old_config.

Definition _reload_config (attempts : Z) : M W unit :=
  try_except
    (modify (set_status (MaintenanceStatus "reloading agent configuration")) ;;;
     let url := "http://localhost/-/reload" in
     let errors := seqZ 400 52 ++ seqZ 500 13 in
     let retries :=
       {| total := attempts; backoff_factor := (1 # 10)%Q; status_forcelist := errors |} in
     http_post retries url)
    (λ _, true)
    (λ e, raise (Exn GrafanaAgentReloadError
                   ("could not reload configuration: " +:+ exn_str e))).

End Reconciler.

(** ** The host of [machine_charm.py] *)

Module MachineCharm.

(** The machine the snap is installed on. *)
Record host := Host {
  snap_listed : bool;
  files : gmap string string;
  restarts : nat;
}.

(** [snap list | grep grafana-agent] returned 0 *)
Definition _is_installed (w : host) : bool :=
  if snap_listed w then true else false.

Definition _principal_relation (self : charm) : option relation :=
  match relations self !! "juju-info" with
  | Some (first :: _) => Some first
  | _ => None
  end.

Definition principal_unit (self : charm) : option string :=
  match _principal_relation self with
  | Some relation =>
      match units relation with
      | unit :: _ => Some unit
      | [] => None
      end
  | None => None
  end.

Definition machine_is_ready (self : charm) (w : host) : bool :=
  _is_installed w && bool_decide (is_Some (principal_unit self)).

Definition machine_read_file (filepath : string) (w : host) : result string :=
  match files w !! filepath with
  | Some text => Ok text
  | None => Raise (Exn FileNotFoundError filepath)
  end.

Definition machine_write_file (path text : string) (w : host) : result unit * host :=
  (Ok tt, Host (snap_listed w) (<[path := text]> (files w)) (restarts w)).

Definition machine_restart (w : host) : result unit * host :=
  (Ok tt, Host (snap_listed w) (files w) (S (restarts w))).

#[global] Instance machine_host : AgentHost host := {
  is_ready := machine_is_ready;
  read_file := machine_read_file;
  write_file := machine_write_file;
  restart := machine_restart;
}.

End MachineCharm.

(** ** A host whose hooks answer as scripted

    The hooks are abstract in [GrafanaAgentCharm]; this host fixes what
    each of them answers, as a test double would. *)

Module ScriptedHost.

Record host := Host {
  ready : bool;
  stored : result string;
  write_answer : result unit;
  restart_answer : result unit;
  post_answer : result unit;
}.

Definition scripted_write_file (path text : string) (w : host) : result unit * host :=
  match write_answer w with
  | Ok tt => (Ok tt, Host (ready w) (Ok text) (write_answer w) (restart_answer w) (post_answer w))
  | Raise e => (Raise e, w)
  end.

#[global] Instance scripted_host : AgentHost host := {
  is_ready := λ _ w, ready w;
  read_file := λ _ w, stored w;
  write_file := scripted_write_file;
  restart := λ w, (restart_answer w, w);
}.

#[global] Instance scripted_http : Http host := {
  session_post := λ _ _ w, (post_answer w, w);
}.

End ScriptedHost.

(** ** A YAML codec for flow-style documents

    [yaml.dump] and [yaml.safe_load] are a library; this small codec for
    flow-style documents with single-quoted strings is one implementation
    of the interface, used to run the model on concrete files. *)

Module FlowYaml.

Definition is_space (c : ascii) : bool :=
  bool_decide (c = " "%char) || bool_decide (c = "010"%char).

Fixpoint skip_ws (s : string) : string :=
  match s with
  | String c r => if is_space c then skip_ws r else s
  | EmptyString => s
  end.

(** Text up to the closing quote. *)
Fixpoint take_quoted (s : string) : option (string * string) :=
  match s with
  | EmptyString => None
  | String c r =>
      if bool_decide (c = "'"%char) then Some (EmptyString, r)
      else match take_quoted r with
           | Some (t, r') => Some (String c t, r')
           | None => None
           end
  end.

Definition digit (c : ascii) : option Z :=
  let n := Z.of_nat (nat_of_ascii c) in
  if bool_decide (48 ≤ n ≤ 57) then Some (n - 48) else None.

Fixpoint take_digits (acc : Z) (s : string) : Z * string :=
  match s with
  | String c r =>
      match digit c with
      | Some d => take_digits (10 * acc + d) r
      | None => (acc, s)
      end
  | EmptyString => (acc, s)
  end.

Definition strip_prefix (p s : string) : option string :=
  if String.prefix p s
  then Some (String.substring (String.length p) (String.length s - String.length p) s)
  else None.

Definition parse_scalar (s : string) : option (pyval * string) :=
  match strip_prefix "null" s, strip_prefix "true" s, strip_prefix "false" s with
  | Some r, _, _ => Some (VNone, r)
  | _, Some r, _ => Some (VBool true, r)
  | _, _, Some r => Some (VBool false, r)
  | _, _, _ =>
      match s with
      | String "-" (String c _ as r) =>
          match digit c with
          | Some _ => let '(z, r') := take_digits 0 r in Some (VInt (- z), r')
          | None => None
          end
      | String c _ =>
          match digit c with
          | Some _ => let '(z, r') := take_digits 0 s in Some (VInt z, r')
          | None => None
          end
      | EmptyString => None
      end
  end.

Fixpoint parse_value (fuel : nat) (s : string) : option (pyval * string) :=
  match fuel with
  | O => None
  | S n =>
      match skip_ws s with
      | String "[" r =>
          match skip_ws r with
          | String "]" r' => Some (VList [], r')
          | _ => parse_items n r []
          end
      | String "{" r =>
          match skip_ws r with
          | String "}" r' => Some (VDict ∅, r')
          | _ => parse_pairs n r ∅
          end
      | String "'" r =>
          match take_quoted r with
          | Some (t, r') => Some (VStr t, r')
          | None => None
          end
      | s' => parse_scalar s'
      end
  end
with parse_items (fuel : nat) (s : string) (acc : list pyval) : option (pyval * string) :=
  match fuel with
  | O => None
  | S n =>
      match parse_value n s with
      | Some (v, r) =>
          match skip_ws r with
          | String "," r' => parse_items n r' (acc ++ [v])
          | String "]" r' => Some (VList (acc ++ [v]), r')
          | _ => None
          end
      | None => None
      end
  end
with parse_pairs (fuel : nat) (s : string) (acc : gmap string pyval) : option (pyval * string) :=
  match fuel with
  | O => None
  | S n =>
      match skip_ws s with
      | String "'" r =>
          match take_quoted r with
          | Some (k, r1) =>
              match skip_ws r1 with
              | String ":" r2 =>
                  match parse_value n r2 with
                  | Some (v, r3) =>
                      match skip_ws r3 with
                      | String "," r' => parse_pairs n r' (<[k := v]> acc)
                      | String "}" r' => Some (VDict (<[k := v]> acc), r')
                      | _ => None
                      end
                  | None => None
                  end
              | _ => None
              end
          | None => None
          end
      | _ => None
      end
  end.

Definition flow_safe_load (text : string) : result pyval :=
  match skip_ws text with
  | EmptyString => Ok VNone
  | _ =>
      match parse_value (4 * String.length text + 4) text with
      | Some (v, r) =>
          match skip_ws r with
          | EmptyString => Ok v
          | _ => Raise (Exn YAMLError "expected the end of the document")
          end
      | None => Raise (Exn YAMLError "could not parse the document")
      end
  end.

Fixpoint digits_of (fuel : nat) (n : Z) (acc : string) : string :=
  match fuel with
  | O => acc
  | S f =>
      let acc' := String (ascii_of_nat (Z.to_nat (48 + n `mod` 10))) acc in
      if bool_decide (n < 10) then acc' else digits_of f (n `div` 10) acc'
  end.

Definition render_int (z : Z) : string :=
  if bool_decide (z < 0)
  then "-" +:+ digits_of (Z.to_nat (- z)) (- z) ""
  else digits_of (S (Z.to_nat z)) z "".

Definition quoted (s : string) : string := "'" +:+ s +:+ "'".

Fixpoint flow_dump (v : pyval) : string :=
  match v with
  | VNone => "null"
  | VBool true => "true"
  | VBool false => "false"
  | VInt z => render_int z
  | VStr s => quoted s
  | VList l => "[" +:+ String.concat ", " (flow_dump <$> l) +:+ "]"
  | VDict m =>
      "{" +:+ String.concat ", "
                ((λ kv, quoted kv.1 +:+ ": " +:+ kv.2) <$> map_to_list (flow_dump <$> m))
          +:+ "}"
  end.

#[global] Instance flow_yaml : Yaml := {
  yaml_safe_load := flow_safe_load;
  yaml_dump := flow_dump;
}.

End FlowYaml.

(** ** Reading a document *)

Definition py_get (key : string) (v : pyval) : option pyval :=
  match v with VDict m => m !! key | _ => None end.

Definition py_item (i : nat) (v : pyval) : option pyval :=
  match v with VList l => l !! i | _ => None end.

Definition py_list (v : pyval) : option (list pyval) :=
  match v with VList l => Some l | _ => None end.

(** [endpoint["tls_config"]["insecure_skip_verify"]] *)
Definition insecure_skip_verify (endpoint : pyval) : option pyval :=
  tls_config ← py_get "tls_config" endpoint;
  py_get "insecure_skip_verify" tls_config.

(** The places of a synthesized document that hold endpoints. *)
Definition metrics_remote_write (document : pyval) : option (list pyval) :=
  metrics ← py_get "metrics" document;
  configs ← py_get "configs" metrics;
  first ← py_item 0 configs;
  remote_write ← py_get "remote_write" first;
  py_list remote_write.

Definition integrations_remote_write (document : pyval) : option (list pyval) :=
  integrations ← py_get "integrations" document;
  remote_write ← py_get "prometheus_remote_write" integrations;
  py_list remote_write.

Definition logs_clients (document : pyval) : option (list pyval) :=
  logs ← py_get "logs" document;
  configs ← py_get "configs" logs;
  first ← py_item 0 configs;
  clients ← py_get "clients" first;
  py_list clients.

(** ** Closed forms used in the statements *)

Section ClosedForms.
Context {W : Type} `{!Yaml} `{!AgentHost W}.
Variable self : charm.

(** All the records [_enrich_endpoints] visits. *)
Definition endpoints : list loc :=
  remote_write_endpoints self ++ loki_endpoints self.

(** The object graph [_generate_config] returns. *)
Definition generated_document : pyobj :=
  config_document
    (integrations_conf self (remote_write_endpoints self))
    (metrics_jobs self)
    (remote_write_endpoints self)
    (loki_conf self (loki_endpoints self)).

(** The value of the desired config when the pass starts from heap [h]. *)
Definition desired_config (h : heap_t) : pyval :=
  snapshot (enrich_heap self endpoints h) generated_document.

(** What [read_old_config] yields on a host: the document on disk, [None]
    when the [try] body raised [FileNotFoundError] or [PathError], and any
    other exception unchanged. *)
Definition persisted_config (w : W) : result pyval :=
  let loaded :=
    match read_file CONFIG_PATH w with
    | Ok text => yaml_safe_load text
    | Raise e => Raise e
    end in
  match loaded with
  | Ok old_config => Ok old_config
  | Raise e => if is_missing_file e then Ok VNone else Raise e
  end.

(** The [except] clauses of the second [try] of [_update_config], applied
    to an exception raised in state [s]. *)
Definition on_apply_error (e : exn) (s : state W) : result unit * state W :=
  match exn_cls e with
  | GrafanaAgentReloadError => (Ok tt, set_status (BlockedStatus (exn_str e)) s)
  | APIError => (Ok tt, set_status (WaitingStatus (exn_str e)) s)
  | _ => (Raise e, s)
  end.

(** The state in which [_update_config] compares the two configs. *)
Definition compared (s : state W) : state W :=
  log_call (CallReadFile CONFIG_PATH)
    (set_heap (enrich_heap self endpoints (heap s))
       (log_call CallGenerateConfig s)).

End ClosedForms.

(** A host keeps what was written to it, and writing or restarting does
    not change whether the agent is ready. *)
Class AgentHostLaws (W : Type) `{!AgentHost W} : Prop := {
  read_after_write path text w w' :
    write_file path text w = (Ok tt, w') → read_file path w' = Ok text;
  ready_after_write self path text w r w' :
    write_file path text w = (r, w') → is_ready self w' = is_ready self w;
  read_after_restart path w r w' :
    restart w = (r, w') → read_file path w' = read_file path w;
  ready_after_restart self w r w' :
    restart w = (r, w') → is_ready self w' = is_ready self w;
}.

(** An identifier that names a single directory entry. *)
Definition filesystem_safe (identifier : string) : bool :=
  negb (bool_decide ("/"%char ∈ String.list_ascii_of_string identifier)).

(** The entries of the destination after the loop of
    [update_alerts_rules]: the copy of the template with one file written
    per item of [rules.items()]. *)
Definition write_item `{!Yaml} (entries : gmap string node)
    (item : string * pyval) : gmap string node :=
  <[rules_file_name item.1 := File (yaml_dump item.2)]> entries.

Definition written_rules `{!Yaml} (rules : gmap string pyval)
    (template : gmap string node) : gmap string node :=
  foldl write_item template (map_to_list rules).

(** A mapping the charm can synchronise: two distinct directories that
    exist, as [__init__] leaves them. *)
Definition mapping_ready (mapping : RulesMapping) (template : gmap string node)
    (f : fs_t) : Prop :=
  src mapping ≠ dest mapping ∧
  f !! src mapping = Some (Dir template) ∧
  ∃ old, f !! dest mapping = Some (Dir old).

(** Identifiers that name one entry each, none of them the name of a
    directory of the template. *)
Definition rules_writable (rules : gmap string pyval)
    (template : gmap string node) : Prop :=
  ∀ identifier, is_Some (rules !! identifier) →
    filesystem_safe identifier = true ∧
    ∀ entries, template !! rules_file_name identifier ≠ Some (Dir entries).

(** ** Concrete inputs *)

Module Examples.

Definition principal : relation := {| relation_id := 0; units := ["postgresql/0"] |}.

Definition agent : charm := {|
  model_name := "lma";
  model_uuid := "1234";
  app_name := "agent";
  unit_name := "agent/0";
  meta_name := "grafana-agent";
  model_config := {[ "tls_insecure_skip_verify" := VBool true ]};
  relations := {[ "juju-info" := [principal];
                  "metrics-endpoint" := [{| relation_id := 1; units := ["app/0"] |}];
                  "send-remote-write" := [] ]};
  remote_write_endpoints := [0%nat; 1%nat];
  loki_endpoints := [2%nat];
  metrics_jobs := VList [];
  _additional_integrations := ∅;
  _additional_log_configs := [];
|}.

(** An extension that brings its own [prometheus_remote_write] entry. *)
Definition agent_with_override : charm := {|
  model_name := "lma";
  model_uuid := "1234";
  app_name := "agent";
  unit_name := "agent/0";
  meta_name := "grafana-agent";
  model_config := {[ "tls_insecure_skip_verify" := VBool true ]};
  relations := ∅;
  remote_write_endpoints := [0%nat];
  loki_endpoints := [];
  metrics_jobs := VList [];
  _additional_integrations :=
    {[ "prometheus_remote_write" := VList [VDict {[ "url" := VStr "http://other/write" ]}] ]};
  _additional_log_configs := [];
|}.

Definition records : heap_t :=
  {[ 0%nat := {[ "url" := VStr "http://prom-0/api/v1/write" ]};
     1%nat := {[ "url" := VStr "http://prom-1/api/v1/write" ]};
     2%nat := {[ "url" := VStr "http://loki-0/loki/api/v1/push" ]} ]}.

Definition start {W} (w : W) : state W := State w records ∅ UnknownStatus [].

(** The desired config of [agent], written by hand: keys in the order of
    the source, one entry per line. *)
Definition hand_written : string :=
"{'server': {'log_level': 'info'},
 'integrations': {
   'agent': {
     'enabled': true,
     'relabel_configs': [
       {'target_label': 'job', 'regex': '(.*)',
        'replacement': 'juju_lma_1234_agent_self-monitoring'},
       {'target_label': 'instance', 'regex': '(.*)',
        'replacement': 'lma_1234_agent_agent/0'},
       {'source_labels': ['__address__'], 'target_label': 'juju_charm',
        'replacement': 'grafana-agent'},
       {'source_labels': ['__address__'], 'target_label': 'juju_model',
        'replacement': 'lma'},
       {'source_labels': ['__address__'], 'target_label': 'juju_model_uuid',
        'replacement': '1234'},
       {'source_labels': ['__address__'], 'target_label': 'juju_application',
        'replacement': 'agent'},
       {'source_labels': ['__address__'], 'target_label': 'juju_unit',
        'replacement': 'agent/0'}]},
   'prometheus_remote_write': [
     {'url': 'http://prom-0/api/v1/write',
      'tls_config': {'insecure_skip_verify': true}},
     {'url': 'http://prom-1/api/v1/write',
      'tls_config': {'insecure_skip_verify': true}}]},
 'metrics': {
   'wal_directory': '/tmp/agent/data',
   'configs': [
     {'name': 'agent_scraper',
      'scrape_configs': [],
      'remote_write': [
        {'url': 'http://prom-0/api/v1/write',
         'tls_config': {'insecure_skip_verify': true}},
        {'url': 'http://prom-1/api/v1/write',
         'tls_config': {'insecure_skip_verify': true}}]}]},
 'logs': {
   'configs': [
     {'name': 'push_api_server',
      'clients': [
        {'url': 'http://loki-0/loki/api/v1/push',
         'tls_config': {'insecure_skip_verify': true}}],
      'positions': {'filename': '/run/promtail-positions.yaml'},
      'scrape_configs': [
        {'job_name': 'loki',
         'loki_push_api': {
           'server': {'http_listen_port': 3500,
                      'grpc_listen_port': 3600}}}]}]}}
".

(** Hosts *)
Definition fresh_machine : MachineCharm.host := MachineCharm.Host true ∅ 0.

Definition edited_machine : MachineCharm.host :=
  MachineCharm.Host true {[ CONFIG_PATH := hand_written ]} 0.

Definition not_ready : ScriptedHost.host :=
  ScriptedHost.Host false (Raise (Exn FileNotFoundError CONFIG_PATH)) (Ok tt) (Ok tt) (Ok tt).

Definition missing_config : ScriptedHost.host :=
  ScriptedHost.Host true (Raise (Exn PathError "not-found - stat /etc/grafana-agent.yaml"))
    (Ok tt) (Ok tt) (Ok tt).

Definition broken_config : ScriptedHost.host :=
  ScriptedHost.Host true (Ok "{'server': ") (Ok tt) (Ok tt) (Ok tt).

Definition restart_fails (e : exn) : ScriptedHost.host :=
  ScriptedHost.Host true (Raise (Exn FileNotFoundError CONFIG_PATH)) (Ok tt) (Raise e) (Ok tt).

(** Rule directories *)
Definition rules_paths : RulesMapping :=
  {| src := "./src/prometheus_alert_rules"; dest := "./prometheus_alert_rules" |}.

Definition template : gmap string node :=
  {[ "README.md" := File "static rules" ]}.

Definition group (name : string) : pyval :=
  VDict {[ "groups" := VList [VDict {[ "name" := VStr name ]}] ]}.

Definition two_groups : gmap string pyval :=
  {[ "lma_1234_a" := group "a"; "lma_1234_b" := group "b" ]}.

Definition one_group : gmap string pyval :=
  {[ "lma_1234_a" := group "a" ]}.

Definition disk : fs_t :=
  {[ "./src/prometheus_alert_rules" := Dir template;
     "./prometheus_alert_rules" :=
       Dir {[ "README.md" := File "static rules";
              "juju_stale.rules" := File "old" ]} ]}.

Definition on_disk {W} (w : W) : state W := State w ∅ disk UnknownStatus [].

(** A reload function that leaves a trace in the unit status. *)
Definition announce_reload {W} : M W unit :=
  modify (set_status (MaintenanceStatus "alert rules reloaded")).

End Examples.

(** * The rest of the charm *)

(** ** Paths of the rule and dashboard directories *)

Definition LOKI_RULES_SRC_PATH : string := "./src/loki_alert_rules".
Definition LOKI_RULES_DEST_PATH : string := "./loki_alert_rules".
Definition METRICS_RULES_SRC_PATH : string := "./src/prometheus_alert_rules".
Definition METRICS_RULES_DEST_PATH : string := "./prometheus_alert_rules".
Definition DASHBOARDS_SRC_PATH : string := "./src/grafana_dashboards".
Definition DASHBOARDS_DEST_PATH : string := "./grafana_dashboards".

(** [path.endswith("/")] *)
Fixpoint ends_with_slash (path : string) : bool :=
  match path with
  | EmptyString => false
  | String c EmptyString => bool_decide (c = "/"%char)
  | String _ rest => ends_with_slash rest
  end.

(** [b.startswith("/")] *)
Definition starts_with_slash (path : string) : bool :=
  match path with
  | String c _ => bool_decide (c = "/"%char)
  | EmptyString => false
  end.

(** [os.path.join(a, b)] of [posixpath]. *)
Definition path_join (a b : string) : string :=
  if starts_with_slash b then b
  else if bool_decide (a = "") || ends_with_slash a then a +:+ b
  else a +:+ "/" +:+ b.

Section Init.
Context {W : Type}.
Variable charm_dir : string.

Definition loki_rules_paths : RulesMapping :=
  {| src := path_join charm_dir LOKI_RULES_SRC_PATH;
     dest := path_join charm_dir LOKI_RULES_DEST_PATH |}.

Definition metrics_rules_paths : RulesMapping :=
  {| src := path_join charm_dir METRICS_RULES_SRC_PATH;
     dest := path_join charm_dir METRICS_RULES_DEST_PATH |}.

Definition dashboard_paths : RulesMapping :=
  {| src := path_join charm_dir DASHBOARDS_SRC_PATH;
     dest := path_join charm_dir DASHBOARDS_DEST_PATH |}.

(** The body of the loop of [__init__]:
    [if not os.path.isdir(rules.dest): shutil.copytree(rules.src, rules.dest,
    dirs_exist_ok=True)]. [copytree] lists the source first and then makes
    the destination, which fails on a destination that is a file. *)
Definition ensure_rules_dir (rules : RulesMapping) : M W unit := λ s,
  match fs s !! dest rules with
  | Some (Dir _) => (Ok tt, s)
  | not_a_directory =>
      match fs s !! src rules with
      | Some (Dir entries) =>
          match not_a_directory with
          | None => (Ok tt, set_fs (<[dest rules := Dir entries]> (fs s)) s)
          | Some _ => (Raise (Exn FileExistsError (dest rules)), s)
          end
      | Some (File _) => (Raise (Exn NotADirectoryError (src rules)), s)
      | None => (Raise (Exn FileNotFoundError (src rules)), s)
      end
  end.

(** The loop of [__init__] over the three mappings. *)
Definition init_rules_dirs : M W unit :=
  for_each [loki_rules_paths; metrics_rules_paths; dashboard_paths]
    ensure_rules_dir.

End Init.

(** The six paths [__init__] builds. *)
Definition init_paths (charm_dir : string) : list string :=
  [ src (loki_rules_paths charm_dir); dest (loki_rules_paths charm_dir);
    src (metrics_rules_paths charm_dir); dest (metrics_rules_paths charm_dir);
    src (dashboard_paths charm_dir); dest (dashboard_paths charm_dir) ].


(** What one mapping needs of the file system before [__init__]. *)
Definition can_prepare (rules : RulesMapping) (f : fs_t) : Prop :=
  (∃ template, f !! src rules = Some (Dir template)) ∧
  (f !! dest rules = None ∨ ∃ old, f !! dest rules = Some (Dir old)).

(** What one mapping has after [__init__]: it can be synchronised, and its
    destination is the directory that was there or else a copy of the
    template. *)
Definition prepared (rules : RulesMapping) (f f' : fs_t) : Prop :=
  ∃ template,
    f !! src rules = Some (Dir template) ∧
    mapping_ready rules template f' ∧
    match f !! dest rules with
    | Some old => f' !! dest rules = Some old
    | None => f' !! dest rules = Some (Dir template)
    end.

(** [n] zero-argument callables around a value. *)
Fixpoint wrapped {A} (n : nat) (inner : maybe_func A) : maybe_func A :=
  match n with
  | O => inner
  | S n' => Callable (λ _, wrapped n' inner)
  end.

(** ** Dashboards *)

(** [str(x)] as an f-string applies it, and [repr] of a string. *)
Class PyFormat := {
  py_str : pyval → string;
  py_repr : string → string;
}.

Section Dashboards.
Context {W : Type} `{!Yaml} `{!PyFormat}.

(** [dash.get(key, default)] *)
Definition dict_get (key : string) (default_value : pyval)
    (d : gmap string pyval) : pyval :=
  default default_value (d !! key).

(** [d[key]] *)
Definition dict_getitem (key : string) (d : gmap string pyval) : M W pyval :=
  match d !! key with
  | Some v => ret v
  | None => raise (Exn KeyError (py_repr key))
  end.

(** [f'{dash.get("charm", "charm-name")}-{dash.get("relation_id", "rel_id")}'] *)
Definition dashboard_identifier (dash : gmap string pyval) : string :=
  py_str (dict_get "charm" (VStr "charm-name") dash) +:+ "-"
    +:+ py_str (dict_get "relation_id" (VStr "rel_id") dash).

(** ["juju_{}.rules".format(identifier)] where [identifier] is the
    one-element tuple the source builds (note its trailing comma): a tuple
    is formatted as [(<repr of its element>,)]. *)
Definition dashboard_file_name (dash : gmap string pyval) : string :=
  "juju_" +:+ ("(" +:+ py_repr (dashboard_identifier dash) +:+ ",)") +:+ ".rules".

(** One iteration of the loop of [update_dashboards]. *)
Definition write_dashboard (mapping : RulesMapping) (dash : gmap string pyval)
    : M W unit :=
  let file_handle := dashboard_file_name dash in
  let! content := dict_getitem "content" dash in
  write_text (dest mapping) file_handle (yaml_dump content).

(** The [try] of [update_dashboards] only binds its argument, so its
    [except NotImplementedError] branch is never taken. *)
Definition update_dashboards (dashboards_func : list (gmap string pyval))
    (reload_func : M W unit) (mapping : RulesMapping) : M W unit :=
  let dashboards := dashboards_func in
  rmtree (dest mapping) ;;;
  copytree (src mapping) (dest mapping) ;;;
  for_each dashboards (write_dashboard mapping) ;;;
  modify (log_call CallReloadFunc) ;;;
  reload_func.

(** [_update_grafana_dashboards]: the property [self.dashboards] is read
    while the arguments of the call are built. *)
Definition _update_grafana_dashboards
    (dashboards : result (list (gmap string pyval)))
    (_update_all_dashboards_from_dir : M W unit) (charm_dir : string) : M W unit :=
  let! dashboards_func := lift_result dashboards in
  update_dashboards dashboards_func _update_all_dashboards_from_dir
    (dashboard_paths charm_dir).

(** The entries of the destination after the loop over dashboards that all
    have a content. *)
Definition dashboard_item (entries : gmap string node)
    (dash : gmap string pyval) : gmap string node :=
  <[dashboard_file_name dash :=
      File (yaml_dump (default VNone (dash !! "content")))]> entries.

(** Dashboards the loop can write over a template. *)
Definition dashboards_writable (dashboards : list (gmap string pyval))
    (template : gmap string node) : Prop :=
  ∀ dash entries, dash ∈ dashboards →
    template !! dashboard_file_name dash ≠ Some (Dir entries).

End Dashboards.

(** ** Event handlers *)

Section Handlers.
Context {W : Type} `{!Yaml} `{!AgentHost W}.
Variable self : charm.
Variable charm_dir : string.
(** [self.metrics_rules] and [self.logs_rules], and the reload functions of
    the two consumers. *)
Variables metrics_rules logs_rules : maybe_func (gmap string pyval).
Variables reload_alerts _reinitialize_alert_rules : M W unit.

Definition _update_metrics_alerts : M W unit :=
  update_alerts_rules metrics_rules reload_alerts (metrics_rules_paths charm_dir).

Definition _update_loki_alerts : M W unit :=
  update_alerts_rules logs_rules _reinitialize_alert_rules
    (loki_rules_paths charm_dir).

Definition _on_upgrade_charm : M W unit :=
  _update_metrics_alerts ;;;
  _update_loki_alerts ;;;
  _update_config self.

Definition _on_loki_push_api_endpoint_joined : M W unit := _update_config self.
Definition _on_loki_push_api_endpoint_departed : M W unit := _update_config self.
Definition _on_config_changed : M W unit := _update_config self.

Definition on_scrape_targets_changed : M W unit :=
  _update_config self ;;;
  _update_status self ;;;
  _update_metrics_alerts.

Definition on_remote_write_changed : M W unit :=
  _update_config self ;;;
  _update_status self ;;;
  _update_metrics_alerts.

End Handlers.

(** ** The version of the agent *)

(** [agent_version_output]: the raw output of [agent -version]. *)
Class AgentBinary (W : Type) := {
  agent_version_output : W → string;
}.

(** A decimal digit; strings are sequences of 8-bit characters, so [\d]
    is one of [0] to [9]. *)
Definition is_digit (c : ascii) : bool :=
  let n := nat_of_ascii c in (48 <=? n)%nat && (n <=? 57)%nat.

(** The longest prefix of digits ([\d*] is greedy, and giving a digit back
    never helps, since a literal dot must follow) and what comes after. *)
Fixpoint span_digits (s : string) : string * string :=
  match s with
  | String c rest =>
      if is_digit c
      then let '(digits, after) := span_digits rest in (String c digits, after)
      else (EmptyString, s)
  | EmptyString => (EmptyString, EmptyString)
  end.

(** A match of the group of the pattern at the start of [s]: three runs
    of digits, each possibly empty, separated by two dots. The result is
    the text of the group. *)
Definition match_version (s : string) : option string :=
  let '(major, after_major) := span_digits s in
  match after_major with
  | String "." after_dot =>
      let '(minor, after_minor) := span_digits after_dot in
      match after_minor with
      | String "." after_dot' =>
          let '(patch, _) := span_digits after_dot' in
          Some (major +:+ "." +:+ minor +:+ "." +:+ patch)
      | _ => None
      end
  | _ => None
  end.

(** [re.search] for the pattern of [_agent_version], the letter [v]
    followed by the group: group 1 of the leftmost match. *)
Fixpoint search_version (s : string) : option string :=
  match s with
  | EmptyString => None
  | String c rest =>
      match (if bool_decide (c = "v"%char) then match_version rest else None) with
      | Some version => Some version
      | None => search_version rest
      end
  end.

Definition _agent_version {W} `{!AgentHost W} `{!AgentBinary W}
    (self : charm) (w : W) : option string :=
  if negb (is_ready self w) then None
  else
    let result := search_version (agent_version_output w) in
    match result with
    | None => result
    | Some group => Some group
    end.

(** A string of digits. *)
Definition all_digits (s : string) : bool :=
  forallb is_digit (String.list_ascii_of_string s).

(** No [v] of the text could start a match: each is followed, inside the
    text, by a character that is neither a digit nor a dot. *)
Fixpoint no_version_start (s : string) : bool :=
  match s with
  | EmptyString => true
  | String c rest =>
      (if bool_decide (c = "v"%char)
       then match rest with
            | String d _ => negb (is_digit d) && negb (bool_decide (d = "."%char))
            | EmptyString => false
            end
       else true) && no_version_start rest
  end.

(** The next character, if any, is not a digit. *)
Definition no_digit_ahead (s : string) : bool :=
  match s with
  | String c _ => negb (is_digit c)
  | EmptyString => true
  end.

(** ** More of [machine_charm.py] *)

Module MachineLabels.
Section Labels.
Variable self : charm.
(** [unit.app.name] of a unit of the model. *)
Variable app_of_unit : string → string.

Definition _principal_topology : list (string * string) :=
  match MachineCharm.principal_unit self with
  | Some unit =>
      [("juju_model", model_name self);
       ("juju_model_uuid", model_uuid self);
       ("juju_application", app_of_unit unit);
       ("juju_unit", unit)]
  | None => []
  end.

Definition _instance_name : string :=
  String.concat "_" (snd <$> _principal_topology).

(** [{"instance": self._instance_name, **self._principal_topology}], in
    the order of the dictionary. *)
Definition _principal_labels : list (string * string) :=
  ("instance", _instance_name) :: _principal_topology.

Definition _principal_relabeling_config : list pyval :=
  let topology_relabels :=
    (λ item, relabel_address item.1 item.2) <$> _principal_topology in
  [relabel_default "instance" _instance_name] ++ topology_relabels.

End Labels.
End MachineLabels.

(** The snap commands [machine_charm.py] runs through [subprocess.run]:
    each changes the machine in a way the charm does not control, and
    [start] and [stop] report a return code. *)
Class SnapCommands := {
  snap_install : MachineCharm.host → MachineCharm.host;
  snap_remove : MachineCharm.host → MachineCharm.host;
  snap_start : MachineCharm.host → Z * MachineCharm.host;
  snap_stop : MachineCharm.host → Z * MachineCharm.host;
}.

Module MachineLifecycle.
Section Lifecycle.
Context `{!SnapCommands}.

Definition run (command : MachineCharm.host → MachineCharm.host)
    : M MachineCharm.host unit :=
  modify (λ s, set_world (command (world s)) s).

Definition run_code (command : MachineCharm.host → Z * MachineCharm.host)
    : M MachineCharm.host Z :=
  λ s, let '(code, w) := command (world s) in (Ok code, set_world w s).

Definition is_installed : M MachineCharm.host bool :=
  gets (λ s, MachineCharm._is_installed (world s)).

(** [raise GrafanaAgentInstallError(message)] and
    [raise GrafanaAgentServiceError(message)] *)
Definition raise_install_error {A} (message : string) : M MachineCharm.host A :=
  raise (Exn OtherException message).
Definition raise_service_error {A} (message : string) : M MachineCharm.host A :=
  raise (Exn OtherException message).

Definition on_install : M MachineCharm.host unit :=
  modify (set_status (MaintenanceStatus "Installing grafana-agent snap")) ;;;
  let! installed := is_installed in
  if negb installed then
    run snap_install ;;;
    let! installed := is_installed in
    if negb installed then raise_install_error "Failed to install grafana-agent."
    else ret tt
  else ret tt.

Definition on_stop : M MachineCharm.host unit :=
  modify (set_status (MaintenanceStatus "Stopping grafana-agent snap")) ;;;
  let! returncode := run_code snap_stop in
  if bool_decide (returncode ≠ 0) then
    raise_service_error "Failed to stop grafana-agent"
  else ret tt.

Definition on_remove : M MachineCharm.host unit :=
  modify (set_status (MaintenanceStatus "Uninstalling grafana-agent snap")) ;;;
  run snap_remove ;;;
  let! installed := is_installed in
  if installed then raise_install_error "Failed to uninstall grafana-agent"
  else ret tt.

End Lifecycle.
End MachineLifecycle.

(** ** More concrete inputs *)

Module MoreExamples.

(** [agent -version] as the source quotes it. *)
Definition version_line : string :=
  "agent, version v0.26.1 (branch: HEAD, revision: 2b88be37)".

#[global] Instance quoting : PyFormat := {
  py_str := λ v, match v with
                 | VStr s => s
                 | VInt z => FlowYaml.render_int z
                 | _ => "?"
                 end;
  py_repr := FlowYaml.quoted;
}.

Definition dashboard (charm_name : string) (relation_id : Z) (title : string)
    : gmap string pyval :=
  {[ "charm" := VStr charm_name;
     "relation_id" := VInt relation_id;
     "content" := VDict {[ "title" := VStr title ]} ]}.

Definition dashboard_without_content : gmap string pyval :=
  {[ "charm" := VStr "loki"; "relation_id" := VInt 7 ]}.

(** A charm directory as [__init__] finds it after deployment: the three
    templates, one destination left from an earlier run. *)
Definition deployed : fs_t :=
  {[ "/charm/./src/loki_alert_rules" := Dir ∅;
     "/charm/./src/prometheus_alert_rules" := Dir Examples.template;
     "/charm/./src/grafana_dashboards" := Dir ∅;
     "/charm/./prometheus_alert_rules" :=
       Dir {[ "juju_stale.rules" := File "old" ]} ]}.

Definition deployed_state {W} (w : W) : state W :=
  State w Examples.records deployed UnknownStatus [].

Definition with_tls_settings : heap_t :=
  {[ 0%nat := {[ "url" := VStr "https://prom-0/api/v1/write";
                 "tls_config" := VDict {[ "ca_file" := VStr "/etc/ssl/ca.pem" ]} ]} ]}.

Definition no_flag : charm := {|
  model_name := "lma";
  model_uuid := "1234";
  app_name := "agent";
  unit_name := "agent/0";
  meta_name := "grafana-agent";
  model_config := ∅;
  relations := {[ "juju-info" :=
                    [ {| relation_id := 0; units := [] |};
                      {| relation_id := 1; units := ["postgresql/0"] |} ];
                  "send-remote-write" := [] ]};
  remote_write_endpoints := [0%nat];
  loki_endpoints := [];
  metrics_jobs := VList [];
  _additional_integrations := {[ "agent" := VDict {[ "enabled" := VBool false ]} ]};
  _additional_log_configs := [];
|}.

Definition write_fails (e : exn) : ScriptedHost.host :=
  ScriptedHost.Host true (Raise (Exn FileNotFoundError CONFIG_PATH))
    (Raise e) (Ok tt) (Ok tt).

Definition unreadable (e : exn) : ScriptedHost.host :=
  ScriptedHost.Host true (Raise e) (Ok tt) (Ok tt) (Ok tt).

Definition empty_file : ScriptedHost.host :=
  ScriptedHost.Host true (Ok "") (Ok tt) (Ok tt) (Ok tt).

#[global] Instance working_snap : SnapCommands := {
  snap_install := λ w, MachineCharm.Host true (MachineCharm.files w) (MachineCharm.restarts w);
  snap_remove := λ w, MachineCharm.Host false (MachineCharm.files w) (MachineCharm.restarts w);
  snap_start := λ w, (0, w);
  snap_stop := λ w, (0, w);
}.

Definition bare_machine : MachineCharm.host := MachineCharm.Host false ∅ 0.

#[global] Instance machine_binary : AgentBinary MachineCharm.host := {
  agent_version_output := λ _, version_line;
}.

End MoreExamples.

(** ** Proof steps *)

(** Lookup of a key in a dictionary display. *)
Ltac lookup_literal :=
  repeat first
    [ rewrite lookup_insert_eq
    | rewrite lookup_singleton_eq
    | rewrite lookup_insert_ne by done
    | rewrite lookup_singleton_ne by done ].

Ltac option_steps :=
  cbn [fmap option_fmap option_map mbind option_bind].

(** * Properties *)

(** ** Text *)

Lemma string_app_length (a b : string) :
  String.length (a +:+ b) = (String.length a + String.length b)%nat.
Proof. induction a as [|c a IH]; simpl; [done | by rewrite IH]. Qed.

Lemma string_app_inv_tail (t a b : string) : a +:+ t = b +:+ t → a = b.
Proof.
  revert b. induction a as [|c a IH]; intros [|d b] Heq.
  - done.
  - apply (f_equal String.length) in Heq.
    rewrite !string_app_length in Heq. simpl in Heq. lia.
  - apply (f_equal String.length) in Heq.
    rewrite !string_app_length in Heq. simpl in Heq. lia.
  - simpl in Heq. injection Heq as -> Heq. f_equal. by apply IH.
Qed.

#[global] Instance rules_file_name_inj : Inj (=) (=) rules_file_name.
Proof.
  intros a b Heq. unfold rules_file_name in Heq.
  apply (inj (String.app "juju_")) in Heq.
  by apply string_app_inv_tail in Heq.
Qed.

(** ** Synthesis *)

Section SynthesisFacts.
Context {W : Type}.
Variable self : charm.

Lemma set_tls_config_idemp (r : gmap string pyval) :
  set_tls_config self (set_tls_config self r) = set_tls_config self r.
Proof. unfold set_tls_config. by rewrite insert_insert_eq. Qed.

Lemma lookup_set_tls_config (r : gmap string pyval) :
  set_tls_config self r !! "tls_config"
  = Some (VDict {[ "insecure_skip_verify" := tls_insecure_skip_verify self ]}).
Proof. unfold set_tls_config. by rewrite lookup_insert_eq. Qed.

Lemma lookup_set_tls_config_ne (r : gmap string pyval) (key : string) :
  key ≠ "tls_config" → set_tls_config self r !! key = r !! key.
Proof. intros Hne. unfold set_tls_config. by rewrite lookup_insert_ne. Qed.

(** The heap after the loop of [_enrich_endpoints]: the visited records
    have their [tls_config] set, the others are untouched. *)
Lemma lookup_enrich_heap (ls : list loc) (h : heap_t) (l : loc) :
  enrich_heap self ls h !! l
  = if bool_decide (l ∈ ls) then set_tls_config self <$> h !! l else h !! l.
Proof.
  unfold enrich_heap. revert h.
  induction ls as [|l0 ls IH]; intros h; simpl; [done|].
  rewrite IH. destruct (decide (l0 = l)) as [->|Hne].
  - rewrite lookup_alter_eq.
    rewrite (bool_decide_eq_true_2 (l ∈ l :: ls)) by apply list_elem_of_here.
    case_bool_decide; [|done].
    destruct (h !! l) as [r|]; simpl; [|done].
    by rewrite set_tls_config_idemp.
  - rewrite lookup_alter_ne by done.
    rewrite (bool_decide_ext (l ∈ l0 :: ls) (l ∈ ls)); [done|].
    rewrite elem_of_cons. intuition congruence.
Qed.

Lemma enrich_heap_idemp (ls : list loc) (h : heap_t) :
  enrich_heap self ls (enrich_heap self ls h) = enrich_heap self ls h.
Proof.
  apply map_eq. intros l. rewrite !lookup_enrich_heap.
  case_bool_decide; [|done].
  destruct (h !! l) as [r|]; simpl; [|done].
  by rewrite set_tls_config_idemp.
Qed.

Lemma enrich_endpoints_run (s : state W) :
  _enrich_endpoints self s
  = (Ok (remote_write_endpoints self, loki_endpoints self),
     set_heap (enrich_heap self (endpoints self) (heap s)) s).
Proof. reflexivity. Qed.

(** [_generate_config] always returns; it logs its call and enriches the
    heap, and the three traversals of the records amount to one. *)
Lemma generate_config_run (s : state W) :
  _generate_config self s
  = (Ok (generated_document self),
     set_heap (enrich_heap self (endpoints self) (heap s))
       (log_call CallGenerateConfig s)).
Proof.
  unfold _generate_config, _integrations_config, _loki_config, bind, modify, ret.
  rewrite !enrich_endpoints_run. simpl.
  rewrite !enrich_heap_idemp. reflexivity.
Qed.

End SynthesisFacts.

(** ** Endpoints in the synthesized document *)

Section Endpoints.
Context {W : Type}.
Variable self : charm.

Lemma snapshot_refs (h : heap_t) (ls : list loc) :
  snapshot h (OList (ORef <$> ls)) = VList (deref h <$> ls).
Proof. simpl. by rewrite <- list_fmap_compose. Qed.

Lemma py_get_dict (key : string) (m : gmap string pyval) :
  py_get key (VDict m) = m !! key.
Proof. reflexivity. Qed.

Lemma py_get_snapshot (h : heap_t) (m : gmap string pyobj) (key : string) :
  py_get key (snapshot h (ODict m)) = snapshot h <$> m !! key.
Proof. simpl. by rewrite lookup_fmap. Qed.

Lemma metrics_remote_write_generated (h : heap_t) :
  metrics_remote_write (snapshot h (generated_document self))
  = Some (deref h <$> remote_write_endpoints self).
Proof.
  unfold metrics_remote_write, generated_document, config_document.
  rewrite py_get_snapshot. lookup_literal. option_steps.
  rewrite py_get_snapshot. lookup_literal. option_steps.
  cbn [snapshot py_item fmap list_fmap lookup list_lookup mbind option_bind].
  rewrite py_get_dict, lookup_fmap. lookup_literal. option_steps.
  rewrite snapshot_refs. reflexivity.
Qed.

Lemma integrations_remote_write_generated (h : heap_t) :
  _additional_integrations self !! "prometheus_remote_write" = None →
  integrations_remote_write (snapshot h (generated_document self))
  = Some (deref h <$> remote_write_endpoints self).
Proof.
  intros Hfree.
  unfold integrations_remote_write, generated_document, config_document.
  rewrite py_get_snapshot. lookup_literal. option_steps.
  unfold integrations_conf. rewrite py_get_snapshot.
  rewrite lookup_union_r by (by rewrite lookup_fmap, Hfree).
  unfold integrations_own. lookup_literal. option_steps.
  rewrite snapshot_refs. reflexivity.
Qed.

Lemma logs_clients_generated (h : heap_t) :
  loki_endpoints self ≠ [] →
  logs_clients (snapshot h (generated_document self))
  = Some (deref h <$> loki_endpoints self).
Proof.
  intros Hsome.
  unfold logs_clients, generated_document, config_document.
  rewrite py_get_snapshot. lookup_literal. option_steps.
  unfold loki_conf, loki_configs.
  destruct (loki_endpoints self) as [|l ls] eqn:Hloki; [done|].
  cbn [app truthy]. rewrite py_get_snapshot. lookup_literal. option_steps.
  cbn [snapshot py_item fmap list_fmap lookup list_lookup mbind option_bind].
  unfold push_api_server. rewrite py_get_snapshot. lookup_literal. option_steps.
  rewrite snapshot_refs. reflexivity.
Qed.

(** A record that was visited carries the flag. *)
Lemma enriched_record_carries (h : heap_t) (ls : list loc) (l : loc) :
  l ∈ ls → is_Some (h !! l) →
  insecure_skip_verify (deref (enrich_heap self ls h) l)
  = Some (tls_insecure_skip_verify self).
Proof.
  intros Hin [r Hr]. unfold deref.
  rewrite lookup_enrich_heap, bool_decide_eq_true_2, Hr by done. simpl.
  unfold insecure_skip_verify.
  rewrite py_get_dict, lookup_set_tls_config. option_steps.
  rewrite py_get_dict. by rewrite lookup_singleton_eq.
Qed.

Lemma enriched_list_carries (h : heap_t) (ls part : list loc) :
  part ⊆ ls → (∀ l, l ∈ ls → is_Some (h !! l)) →
  Forall (λ endpoint, insecure_skip_verify endpoint = Some (tls_insecure_skip_verify self))
    (deref (enrich_heap self ls h) <$> part).
Proof.
  intros Hsub Hlive. apply Forall_fmap, Forall_forall. intros l Hl. simpl.
  apply enriched_record_carries; auto.
Qed.

End Endpoints.

Section SynthesisClaims.
Context {W : Type}.

(** C8. With the flag [tls_insecure_skip_verify] set to the boolean [b],
    [_generate_config] returns a document in which every endpoint it embeds
    from the N records of the providers carries
    [tls_config.insecure_skip_verify = b]: the [remote_write] list of the
    metrics section, the clients of the push server when there are log
    endpoints, and the [prometheus_remote_write] entry of the integrations
    when no extension integration replaces that entry. The records
    themselves carry the same value afterwards. Since [b] is arbitrary,
    flipping the flag flips it on all of them. *)
Theorem generate_config_tls_uniform (self : charm) (s : state W) (b : bool) :
  model_config self !! "tls_insecure_skip_verify" = Some (VBool b) →
  (∀ l, l ∈ endpoints self → is_Some (heap s !! l)) →
  ∃ config s',
    _generate_config self s = (Ok config, s') ∧
    let document := snapshot (heap s') config in
    let carries := λ endpoint, insecure_skip_verify endpoint = Some (VBool b) in
    (∃ remote_write,
        metrics_remote_write document = Some remote_write ∧
        length remote_write = length (remote_write_endpoints self) ∧
        Forall carries remote_write) ∧
    (loki_endpoints self ≠ [] →
      ∃ clients,
        logs_clients document = Some clients ∧
        length clients = length (loki_endpoints self) ∧
        Forall carries clients) ∧
    (_additional_integrations self !! "prometheus_remote_write" = None →
      ∃ remote_write,
        integrations_remote_write document = Some remote_write ∧
        length remote_write = length (remote_write_endpoints self) ∧
        Forall carries remote_write) ∧
    (∀ l, l ∈ endpoints self → carries (deref (heap s') l)).
Proof.
  intros Hflag Hlive.
  assert (Hb : tls_insecure_skip_verify self = VBool b).
  { unfold tls_insecure_skip_verify. by rewrite Hflag. }
  eexists _, _. split; [apply generate_config_run|].
  cbn [heap set_heap log_call]. rewrite <- Hb.
  split; [|split; [|split]].
  - eexists. split; [apply metrics_remote_write_generated|].
    split; [by rewrite length_fmap|].
    apply enriched_list_carries; [|done].
    intros l Hl. unfold endpoints. apply elem_of_app. by left.
  - intros Hloki. eexists. split; [by apply logs_clients_generated|].
    split; [by rewrite length_fmap|].
    apply enriched_list_carries; [|done].
    intros l Hl. unfold endpoints. apply elem_of_app. by right.
  - intros Hfree. eexists.
    split; [by apply integrations_remote_write_generated|].
    split; [by rewrite length_fmap|].
    apply enriched_list_carries; [|done].
    intros l Hl. unfold endpoints. apply elem_of_app. by left.
  - intros l Hl. apply enriched_record_carries; auto.
Qed.

(** C9, amended. [_generate_config] is deterministic and performs no I/O:
    it always returns the same object graph, leaves the host, the file
    system and the unit status alone and only records its own call. It is
    not free of side effects: it writes [tls_config] into every record of
    the providers (and into nothing else), other keys of the records are
    kept, and a second call changes nothing further and yields an equal
    document. *)
Theorem generate_config_effects (self : charm) (s : state W) :
  ∃ config s1 s2,
    _generate_config self s = (Ok config, s1) ∧
    _generate_config self s1 = (Ok config, s2) ∧
    world s1 = world s ∧ fs s1 = fs s ∧ unit_status s1 = unit_status s ∧
    calls s1 = calls s ++ [CallGenerateConfig] ∧
    (∀ l, heap s1 !! l
          = if bool_decide (l ∈ endpoints self)
            then set_tls_config self <$> heap s !! l
            else heap s !! l) ∧
    (∀ l record key, heap s !! l = Some record → key ≠ "tls_config" →
       ∃ record', heap s1 !! l = Some record' ∧ record' !! key = record !! key) ∧
    heap s2 = heap s1 ∧
    snapshot (heap s2) config = snapshot (heap s1) config.
Proof.
  eexists _, _, _.
  split; [apply generate_config_run|].
  split; [apply generate_config_run|].
  cbn [world fs unit_status calls heap set_heap log_call].
  rewrite enrich_heap_idemp.
  repeat split; try done.
  - intros l. apply lookup_enrich_heap.
  - intros l record key Hl Hkey. rewrite lookup_enrich_heap, Hl.
    case_bool_decide; simpl; eexists; split; try done.
    by apply lookup_set_tls_config_ne.
Qed.

End SynthesisClaims.

(** An extension integration named [prometheus_remote_write] replaces the
    entry synthesis writes: the integrations then list what the extension
    supplied. *)
Remark integrations_override_replaces_entry :
  let run := _generate_config Examples.agent_with_override (Examples.start tt) in
  ∃ config, run.1 = Ok config ∧
    integrations_remote_write (snapshot (heap run.2) config)
    = Some [VDict {[ "url" := VStr "http://other/write" ]}].
Proof.
  cbv zeta. rewrite generate_config_run. eexists. split; [reflexivity|].
  apply (bool_decide_unpack _). vm_compute. exact I.
Qed.

(** Witness of C8: two metrics endpoints and one log endpoint, flag set. *)
Lemma generate_config_tls_uniform_witness :
  ∃ config s',
    _generate_config Examples.agent (Examples.start tt) = (Ok config, s') ∧
    metrics_remote_write (snapshot (heap s') config)
    = Some [ VDict {[ "url" := VStr "http://prom-0/api/v1/write";
                      "tls_config" := VDict {[ "insecure_skip_verify" := VBool true ]} ]};
             VDict {[ "url" := VStr "http://prom-1/api/v1/write";
                      "tls_config" := VDict {[ "insecure_skip_verify" := VBool true ]} ]} ].
Proof.
  destruct (generate_config_tls_uniform Examples.agent (Examples.start tt) true)
    as (config & s' & Hrun & _).
  - reflexivity.
  - intros l Hl. apply (bool_decide_unpack _). revert l Hl.
    apply Forall_forall. vm_compute. repeat constructor.
  - exists config, s'. split; [exact Hrun|].
    rewrite generate_config_run in Hrun. injection Hrun as <- <-.
    apply (bool_decide_unpack _). vm_compute. reflexivity.
Defined.

(** Counterexample of C9: synthesis changes the record of the first
    metrics endpoint, which the provider supplied without [tls_config]. *)
Lemma generate_config_mutates_records :
  let s := Examples.start tt in
  let s' := (_generate_config Examples.agent s).2 in
  heap s !! 0%nat = Some {[ "url" := VStr "http://prom-0/api/v1/write" ]} ∧
  heap s' !! 0%nat
  = Some {[ "url" := VStr "http://prom-0/api/v1/write";
            "tls_config" := VDict {[ "insecure_skip_verify" := VBool true ]} ]} ∧
  heap s' ≠ heap s.
Proof.
  assert (H0 : heap (Examples.start tt) !! 0%nat
               = Some {[ "url" := VStr "http://prom-0/api/v1/write" ]}).
  { apply (bool_decide_unpack _). vm_compute. reflexivity. }
  assert (H1 : heap (_generate_config Examples.agent (Examples.start tt)).2 !! 0%nat
               = Some {[ "url" := VStr "http://prom-0/api/v1/write";
                         "tls_config" := VDict {[ "insecure_skip_verify" := VBool true ]} ]}).
  { apply (bool_decide_unpack _). vm_compute. reflexivity. }
  cbv zeta. split; [exact H0|]. split; [exact H1|].
  intros Heq. rewrite Heq, H0 in H1.
  apply (bool_decide_pack _) in H1. vm_compute in H1. exact H1.
Qed.

(** ** The reconciliation pass *)

Section ReconcilerFacts.
Context {W : Type} `{!Yaml} `{!AgentHost W}.
Variable self : charm.

Lemma read_old_config_run (s : state W) :
  read_old_config s
  = (persisted_config (world s), log_call (CallReadFile CONFIG_PATH) s).
Proof.
  unfold read_old_config, persisted_config, try_except, bind, host_read_file,
    lift_result, ret.
  destruct (read_file CONFIG_PATH (world s)) as [text|e].
  - destruct (yaml_safe_load text) as [v|e]; [done|].
    by destruct (is_missing_file e).
  - by destruct (is_missing_file e).
Qed.

Lemma desired_config_is_dict (h : heap_t) : ∃ m, desired_config self h = VDict m.
Proof. unfold desired_config, generated_document, config_document. simpl. eauto. Qed.

Lemma desired_config_not_none (h : heap_t) : desired_config self h ≠ VNone.
Proof. destruct (desired_config_is_dict h) as [m ->]. done. Qed.

Lemma desired_config_enriched (h : heap_t) :
  desired_config self (enrich_heap self (endpoints self) h) = desired_config self h.
Proof. unfold desired_config. by rewrite enrich_heap_idemp. Qed.

(** The second [try] when the configs differ: write, restart, and the
    [except] clauses for whatever either of them raises. *)
Lemma apply_config_run (config : pyobj) (old_config : pyval) (s : state W) :
  snapshot (heap s) config ≠ old_config →
  apply_config config old_config s
  = let text := yaml_dump (snapshot (heap s) config) in
    let '(written, w1) := write_file CONFIG_PATH text (world s) in
    let s1 := set_world w1 (log_call (CallWriteFile CONFIG_PATH text) s) in
    match written with
    | Raise e => on_apply_error e s1
    | Ok _ =>
        let '(restarted, w2) := restart w1 in
        let s2 := set_world w2 (log_call CallRestart s1) in
        match restarted with
        | Raise e => on_apply_error e s2
        | Ok _ => (Ok tt, set_status ActiveStatus s2)
        end
    end.
Proof.
  intros Hne.
  unfold apply_config, try_except, bind, config_eq, dump_config, gets,
    host_write_file, host_restart, modify, on_apply_error.
  rewrite bool_decide_eq_false_2 by done. cbn [negb].
  destruct (write_file _ _ _) as [[[]|e] w1]; cbn [world set_world log_call].
  - destruct (restart w1) as [[[]|e] w2]; [done|].
    unfold is_reload_or_api_error. by destruct (exn_cls e).
  - unfold is_reload_or_api_error. by destruct (exn_cls e).
Qed.

(** A pass on a ready host. *)
Lemma update_config_ready (s : state W) :
  is_ready self (world s) = true →
  _update_config self s
  = match persisted_config (world s) with
    | Raise e => (Raise e, compared self s)
    | Ok old_config =>
        if bool_decide (desired_config self (heap s) = old_config)
        then (Ok tt, set_status ActiveStatus (compared self s))
        else apply_config (generated_document self) old_config (compared self s)
    end.
Proof.
  intros Hready.
  unfold _update_config, bind, host_is_ready, gets. rewrite Hready. cbn [negb].
  rewrite generate_config_run, read_old_config_run.
  cbn [world set_heap log_call].
  destruct (persisted_config (world s)) as [old_config|e]; [|done].
  unfold config_eq, gets, modify. cbn [heap set_heap log_call].
  fold (desired_config self (heap s)).
  by case_bool_decide.
Qed.

End ReconcilerFacts.

Section ReconcilerClaims.
Context {W : Type} `{!Yaml} `{!AgentHost W}.

(** C5. When [is_ready] is false, [_update_config] returns at once: the
    only change to the state is the unit status, set to
    [WaitingStatus("waiting for agent to start")]. No call is recorded (no
    synthesis, no [read_file], no [write_file], no [restart]) and the host,
    the heap and the file system are the ones the pass started with. *)
Theorem update_config_not_ready (self : charm) (s : state W) :
  is_ready self (world s) = false →
  _update_config self s
  = (Ok tt, set_status (WaitingStatus "waiting for agent to start") s) ∧
  let s' := (_update_config self s).2 in
  unit_status s' = WaitingStatus "waiting for agent to start" ∧
  calls s' = calls s ∧ world s' = world s ∧ heap s' = heap s ∧ fs s' = fs s.
Proof.
  intros Hready.
  assert (Hrun : _update_config self s
                 = (Ok tt, set_status (WaitingStatus "waiting for agent to start") s)).
  { unfold _update_config, bind, host_is_ready, gets. by rewrite Hready. }
  split; [exact Hrun|]. by rewrite Hrun.
Qed.

(** C10. Whatever [is_ready] answers and whatever the relations are,
    [_update_status] ends with the unconditional assignment of
    [ActiveStatus]: when it returns, the state is the initial one with the
    status [ActiveStatus], so neither [WaitingStatus] it assigns on the way
    survives. The only other outcome is the [KeyError] of
    [self.model.relations["send-remote-write"]] for a relation name that is
    not declared, raised before any status is assigned. *)
Theorem update_status_always_active (self : charm) (s : state W) :
  match _update_status self s with
  | (Ok _, s') => s' = set_status ActiveStatus s ∧ unit_status s' = ActiveStatus
  | (Raise e, s') =>
      exn_cls e = KeyError ∧ relations self !! REMOTE_WRITE_RELATION_NAME = None ∧ s' = s
  end.
Proof.
  unfold _update_status, bind, host_is_ready, gets, modify, ret, relations_getitem, raise.
  destruct (relations self !! "metrics-endpoint") as [rels|]; cycle 1.
  { destruct (is_ready self (world s)); cbn; split; reflexivity. }
  destruct (truthy rels); cycle 1.
  { destruct (is_ready self (world s)); cbn; split; reflexivity. }
  destruct (bool_decide (length rels ≠ 0%nat)); cycle 1.
  { destruct (is_ready self (world s)); cbn; split; reflexivity. }
  destruct (relations self !! REMOTE_WRITE_RELATION_NAME) as [remote_write|] eqn:Hrw;
    cycle 1.
  { cbn. split; [reflexivity|]. split; reflexivity. }
  cbn. destruct (bool_decide (length remote_write = 0%nat)); cbn;
    destruct (is_ready self (world s)); cbn; split; reflexivity.
Qed.

(** C7. On a ready host where the desired config differs from the
    persisted one and [write_file] has succeeded, the outcome of [restart]
    decides the status: [ActiveStatus] when it returns, [BlockedStatus]
    with the message of the [GrafanaAgentReloadError] it raises, and
    [WaitingStatus] with the message of the [APIError] it raises; the
    message is [str(e)] unchanged, and the pass itself returns normally. *)
Theorem update_config_restart_outcome (self : charm) (s : state W)
    (old_config : pyval) (w1 w2 : W) (restarted : result unit) :
  is_ready self (world s) = true →
  persisted_config (world s) = Ok old_config →
  desired_config self (heap s) ≠ old_config →
  write_file CONFIG_PATH (yaml_dump (desired_config self (heap s))) (world s)
  = (Ok tt, w1) →
  restart w1 = (restarted, w2) →
  let run := _update_config self s in
  (restarted = Ok tt → run.1 = Ok tt ∧ unit_status run.2 = ActiveStatus) ∧
  (∀ message, restarted = Raise (Exn GrafanaAgentReloadError message) →
     run.1 = Ok tt ∧ unit_status run.2 = BlockedStatus message) ∧
  (∀ message, restarted = Raise (Exn APIError message) →
     run.1 = Ok tt ∧ unit_status run.2 = WaitingStatus message).
Proof.
  intros Hready Hold Hne Hwrite Hrestart.
  rewrite (update_config_ready self s Hready), Hold.
  rewrite bool_decide_eq_false_2 by done.
  rewrite apply_config_run by done.
  cbn [heap world compared set_heap log_call].
  fold (desired_config self (heap s)).
  rewrite Hwrite, Hrestart.
  cbv zeta. split; [|split].
  - intros ->. split; reflexivity.
  - intros message ->. split; reflexivity.
  - intros message ->. split; reflexivity.
Qed.

End ReconcilerClaims.

Section PersistedConfigClaims.
Context {W : Type} `{!Yaml} `{!AgentHost W}.

Lemma calls_on_apply_error (e : exn) (s : state W) :
  calls (on_apply_error e s).2 = calls s.
Proof. unfold on_apply_error. by destruct (exn_cls e). Qed.

(** C1, amended. When the persisted config file is missing, that is when
    [read_file] raises [FileNotFoundError] or [PathError], a pass on a ready
    host takes the persisted config to be [None] and raises nothing for the
    read: it is the second [try] run with [old_config = None], so
    [write_file] is called with the serialised desired config, and when
    [write_file] and [restart] succeed the pass returns with
    [ActiveStatus] after exactly the calls synthesis, read, write,
    restart. *)
Theorem update_config_missing_file (self : charm) (s : state W) (e : exn) :
  is_ready self (world s) = true →
  read_file CONFIG_PATH (world s) = Raise e →
  is_missing_file e = true →
  let text := yaml_dump (desired_config self (heap s)) in
  persisted_config (world s) = Ok VNone ∧
  _update_config self s
  = apply_config (generated_document self) VNone (compared self s) ∧
  (∃ rest,
     calls (_update_config self s).2
     = calls s ++ [CallGenerateConfig; CallReadFile CONFIG_PATH;
                   CallWriteFile CONFIG_PATH text] ++ rest) ∧
  (∀ w1 w2,
     write_file CONFIG_PATH text (world s) = (Ok tt, w1) →
     restart w1 = (Ok tt, w2) →
     (_update_config self s).1 = Ok tt ∧
     unit_status (_update_config self s).2 = ActiveStatus ∧
     world (_update_config self s).2 = w2 ∧
     calls (_update_config self s).2
     = calls s ++ [CallGenerateConfig; CallReadFile CONFIG_PATH;
                   CallWriteFile CONFIG_PATH text; CallRestart]).
Proof.
  intros Hready Hread Hmissing text.
  assert (Hold : persisted_config (world s) = Ok VNone).
  { unfold persisted_config. by rewrite Hread, Hmissing. }
  assert (Hne : desired_config self (heap s) ≠ VNone)
    by apply desired_config_not_none.
  assert (Hrun : _update_config self s
                 = apply_config (generated_document self) VNone (compared self s)).
  { rewrite (update_config_ready self s Hready), Hold.
    by rewrite bool_decide_eq_false_2. }
  split; [exact Hold|]. split; [exact Hrun|].
  rewrite Hrun, apply_config_run by exact Hne.
  cbn [heap world compared set_heap log_call].
  fold (desired_config self (heap s)). fold text.
  split.
  - destruct (write_file CONFIG_PATH text (world s)) as [[[]|e1] w1].
    + destruct (restart w1) as [[[]|e2] w2].
      * exists [CallRestart]. cbn. by rewrite <- !app_assoc.
      * exists [CallRestart]. rewrite calls_on_apply_error. cbn.
        by rewrite <- !app_assoc.
    + exists []. rewrite calls_on_apply_error. cbn. by rewrite <- !app_assoc.
  - intros w1 w2 Hwrite Hrestart. rewrite Hwrite, Hrestart. cbn.
    by rewrite <- !app_assoc.
Qed.

(** The host laws make a second pass see what the first one wrote. *)
Context `{!AgentHostLaws W}.

(** C3, amended. On a ready host: (1) whenever the text on disk
    deserialises to the desired config, whatever its key order and
    whitespace, the pass only synthesises and reads, and ends in
    [ActiveStatus]; (2) when the first pass can read (or misses) the
    persisted config, the serialiser round-trips the desired config and
    [write_file] and [restart] succeed, both passes return with
    [ActiveStatus], the first pass writes and restarts at most once, and
    the second pass performs no [write_file] and no [restart]: it only
    synthesises and reads, and leaves the host as it found it. *)
Theorem update_config_idempotent (self : charm) (s : state W) :
  is_ready self (world s) = true →
  let desired := desired_config self (heap s) in
  (∀ text,
     read_file CONFIG_PATH (world s) = Ok text →
     yaml_safe_load text = Ok desired →
     _update_config self s = (Ok tt, set_status ActiveStatus (compared self s))) ∧
  (∀ old_config,
     persisted_config (world s) = Ok old_config →
     yaml_safe_load (yaml_dump desired) = Ok desired →
     (write_file CONFIG_PATH (yaml_dump desired) (world s)).1 = Ok tt →
     (restart (write_file CONFIG_PATH (yaml_dump desired) (world s)).2).1 = Ok tt →
     ∃ s1 s2,
       _update_config self s = (Ok tt, s1) ∧
       _update_config self s1 = (Ok tt, s2) ∧
       unit_status s1 = ActiveStatus ∧
       unit_status s2 = ActiveStatus ∧
       (calls s1 = calls s ++ [CallGenerateConfig; CallReadFile CONFIG_PATH] ∨
        calls s1 = calls s ++ [CallGenerateConfig; CallReadFile CONFIG_PATH;
                               CallWriteFile CONFIG_PATH (yaml_dump desired);
                               CallRestart]) ∧
       calls s2 = calls s1 ++ [CallGenerateConfig; CallReadFile CONFIG_PATH] ∧
       world s2 = world s1).
Proof.
  intros Hready desired.
  assert (Hnoop : ∀ s0 : state W,
            is_ready self (world s0) = true →
            persisted_config (world s0) = Ok (desired_config self (heap s0)) →
            _update_config self s0
            = (Ok tt, set_status ActiveStatus (compared self s0))).
  { intros s0 Hr Hp. rewrite (update_config_ready self s0 Hr), Hp.
    by rewrite bool_decide_eq_true_2. }
  split.
  { intros text Hread Hload. apply Hnoop; [done|].
    unfold persisted_config. by rewrite Hread, Hload. }
  intros old_config Hold Hround Hwrite Hrestart.
  rewrite (update_config_ready self s Hready), Hold.
  case_bool_decide as Hcmp.
  - (* nothing to apply in the first pass *)
    eexists _, _. split; [reflexivity|].
    split.
    { apply Hnoop; cbn [world heap compared set_status set_heap log_call]; [done|].
      rewrite desired_config_enriched. by rewrite Hold, <- Hcmp. }
    cbn. repeat split; try done.
    + left. by rewrite <- !app_assoc.
    + by rewrite <- !app_assoc.
  - (* the first pass writes and restarts *)
    rewrite apply_config_run by done.
    cbn [heap world compared set_heap log_call].
    fold (desired_config self (heap s)). fold desired.
    destruct (write_file CONFIG_PATH (yaml_dump desired) (world s))
      as [written w1] eqn:Hw.
    cbn [fst snd] in Hwrite, Hrestart. subst written.
    destruct (restart w1) as [restarted w2] eqn:Hr.
    cbn [fst] in Hrestart. subst restarted.
    eexists _, _. split; [reflexivity|].
    split.
    { apply Hnoop; cbn [world heap compared set_status set_world set_heap log_call].
      - rewrite (ready_after_restart self w1 _ w2 Hr).
        by rewrite (ready_after_write self _ _ (world s) _ w1 Hw).
      - rewrite desired_config_enriched. fold desired.
        unfold persisted_config.
        rewrite (read_after_restart CONFIG_PATH w1 _ w2 Hr).
        rewrite (read_after_write CONFIG_PATH _ (world s) w1 Hw).
        by rewrite Hround. }
    cbn. repeat split; try done.
    + right. by rewrite <- !app_assoc.
    + by rewrite <- !app_assoc.
Qed.

End PersistedConfigClaims.

(** ** Rule synchronisation *)

Section SyncFacts.
Context {W : Type} `{!Yaml}.

Lemma set_fs_same (s : state W) : set_fs (fs s) s = s.
Proof. by destruct s. Qed.

Lemma write_text_run (directory name text : string)
    (entries : gmap string node) (s : state W) :
  fs s !! directory = Some (Dir entries) →
  (∀ sub, entries !! name ≠ Some (Dir sub)) →
  write_text directory name text s
  = (Ok tt, set_fs (<[directory := Dir (<[name := File text]> entries)]> (fs s)) s).
Proof.
  intros Hdir Hentry. unfold write_text. rewrite Hdir.
  destruct (entries !! name) as [[old|sub]|] eqn:He; [done| |done].
  by destruct (Hentry sub).
Qed.

Lemma for_each_write_run (directory : string) (items : list (string * pyval)) :
  ∀ (entries : gmap string node) (s : state W),
    fs s !! directory = Some (Dir entries) →
    (∀ item sub, item ∈ items →
       entries !! rules_file_name item.1 ≠ Some (Dir sub)) →
    for_each items
      (λ item, let '(topology_identifier, rule) := item in
               write_text directory (rules_file_name topology_identifier)
                 (yaml_dump rule)) s
    = (Ok tt, set_fs (<[directory := Dir (foldl write_item entries items)]> (fs s)) s).
Proof.
  induction items as [|[identifier rule] items IH]; intros entries s Hdir Hfiles.
  - cbn. by rewrite insert_id, set_fs_same.
  - cbn [for_each foldl]. unfold bind.
    rewrite (write_text_run _ _ _ entries) by
      (try done; intros sub; apply (Hfiles (identifier, rule)), list_elem_of_here).
    rewrite (IH (write_item entries (identifier, rule))).
    + cbn [fs set_fs]. by rewrite insert_insert_eq.
    + cbn [fs set_fs]. by rewrite lookup_insert_eq.
    + intros item sub Hitem. unfold write_item. cbn [fst snd].
      destruct (decide (rules_file_name identifier = rules_file_name item.1))
        as [->|Hne].
      * by rewrite lookup_insert_eq.
      * rewrite lookup_insert_ne by done.
        apply Hfiles. by apply list_elem_of_further.
Qed.

Lemma foldl_write_item_other (items : list (string * pyval)) :
  ∀ (entries : gmap string node) (name : string),
    (∀ item, item ∈ items → rules_file_name item.1 ≠ name) →
    foldl write_item entries items !! name = entries !! name.
Proof.
  induction items as [|item items IH]; intros entries name Hother; [done|].
  cbn [foldl]. rewrite IH.
  - unfold write_item. rewrite lookup_insert_ne; [done|].
    apply Hother, list_elem_of_here.
  - intros item' Hin. by apply Hother, list_elem_of_further.
Qed.

Lemma foldl_write_item_own (items : list (string * pyval)) :
  ∀ (entries : gmap string node) (identifier : string) (rule : pyval),
    NoDup items.*1 → (identifier, rule) ∈ items →
    foldl write_item entries items !! rules_file_name identifier
    = Some (File (yaml_dump rule)).
Proof.
  induction items as [|[k v] items IH]; intros entries identifier rule Hnodup Hin.
  - by apply elem_of_nil in Hin.
  - cbn in Hnodup. apply NoDup_cons in Hnodup as [Hfresh Hnodup].
    cbn [foldl]. apply elem_of_cons in Hin as [Heq|Hin].
    + injection Heq as <- <-.
      rewrite foldl_write_item_other.
      * unfold write_item. cbn. by rewrite lookup_insert_eq.
      * intros item Hitem Hname. apply (inj rules_file_name) in Hname.
        apply Hfresh. rewrite <- Hname.
        apply list_elem_of_fmap. by exists item.
    + by apply IH.
Qed.

Lemma lookup_written_rules_own (rules : gmap string pyval)
    (template : gmap string node) (identifier : string) (rule : pyval) :
  rules !! identifier = Some rule →
  written_rules rules template !! rules_file_name identifier
  = Some (File (yaml_dump rule)).
Proof.
  intros Hrule. apply (foldl_write_item_own (map_to_list rules)).
  - apply NoDup_fst_map_to_list.
  - by apply elem_of_map_to_list.
Qed.

Lemma lookup_written_rules_other (rules : gmap string pyval)
    (template : gmap string node) (name : string) :
  (∀ identifier, is_Some (rules !! identifier) → name ≠ rules_file_name identifier) →
  written_rules rules template !! name = template !! name.
Proof.
  intros Hother. apply (foldl_write_item_other (map_to_list rules)).
  intros [identifier rule] Hin Hname. cbn in Hname.
  apply elem_of_map_to_list in Hin.
  by apply (Hother identifier); [eexists|].
Qed.

(** A synchronisation on a well-formed mapping never raises before the
    reload function is called, and calls it once, last. *)
Lemma update_alerts_rules_run (alerts_func : maybe_func (gmap string pyval))
    (reload_func : M W unit) (mapping : RulesMapping)
    (template : gmap string node) (s : state W) :
  mapping_ready mapping template (fs s) →
  rules_writable (_recurse_call_chain alerts_func) template →
  update_alerts_rules alerts_func reload_func mapping s
  = reload_func
      (log_call CallReloadFunc
         (set_fs (<[dest mapping :=
                      Dir (written_rules (_recurse_call_chain alerts_func) template)]>
                    (fs s)) s)).
Proof.
  intros (Hdistinct & Hsrc & old & Hdest) Hwritable.
  unfold update_alerts_rules.
  unfold bind at 1. unfold rmtree. rewrite Hdest.
  unfold bind at 1. unfold copytree. cbn [fs set_fs].
  rewrite lookup_delete_ne by done. rewrite Hsrc, lookup_delete_eq.
  unfold bind at 1.
  rewrite (for_each_write_run (dest mapping) _ template).
  - unfold bind at 1, modify. cbn [fs set_fs].
    rewrite insert_insert_eq, insert_delete_eq. reflexivity.
  - cbn. by rewrite lookup_insert_eq.
  - intros [identifier rule] sub Hin. cbn.
    apply elem_of_map_to_list in Hin.
    destruct (Hwritable identifier) as [_ Hfile]; [by eexists|]. apply Hfile.
Qed.

End SyncFacts.

Section SyncClaims.
Context {W : Type} `{!Yaml}.

(** C6. On a mapping whose two directories exist and for rule groups whose
    identifiers name one entry each, [update_alerts_rules] replaces the
    destination before it calls the reload function: the destination then
    holds a file [juju_<identifier>.rules] with the serialised content for
    every supplied group, and under every other name exactly what the
    source template holds there. Nothing of the previous destination
    remains, so a group that is no longer supplied has no file, and an
    empty group set leaves the copy of the template. A reload function that
    does not touch the file system leaves this directory as the result. *)
Theorem update_alerts_rules_destination
    (alerts_func : maybe_func (gmap string pyval)) (reload_func : M W unit)
    (mapping : RulesMapping) (template : gmap string node) (s : state W) :
  let rules := _recurse_call_chain alerts_func in
  mapping_ready mapping template (fs s) →
  rules_writable rules template →
  ∃ entries,
    update_alerts_rules alerts_func reload_func mapping s
    = reload_func
        (log_call CallReloadFunc
           (set_fs (<[dest mapping := Dir entries]> (fs s)) s)) ∧
    (∀ identifier rule, rules !! identifier = Some rule →
       entries !! rules_file_name identifier = Some (File (yaml_dump rule))) ∧
    (∀ name,
       (∀ identifier, is_Some (rules !! identifier) → name ≠ rules_file_name identifier) →
       entries !! name = template !! name) ∧
    (rules = ∅ → entries = template) ∧
    ((∀ s0, fs (reload_func s0).2 = fs s0) →
       fs (update_alerts_rules alerts_func reload_func mapping s).2 !! dest mapping
       = Some (Dir entries)).
Proof.
  intros rules Hready Hwritable.
  exists (written_rules rules template).
  split; [by apply update_alerts_rules_run|].
  split; [by apply lookup_written_rules_own|].
  split; [by apply lookup_written_rules_other|].
  split.
  - intros ->. unfold written_rules. by rewrite map_to_list_empty.
  - intros Hframe. rewrite (update_alerts_rules_run _ _ _ template) by done.
    rewrite Hframe. cbn [fs set_fs log_call]. by rewrite lookup_insert_eq.
Qed.

(** C4, amended. [update_alerts_rules] does trigger the reload itself: on
    a mapping whose two directories exist it replaces the directory,
    writes the rule files and then calls the [reload_func] it was given,
    exactly once and as its last step. Up to that call only the file
    system has changed, and the outcome of the synchronisation is the
    outcome of [reload_func]. *)
Theorem update_alerts_rules_reloads
    (alerts_func : maybe_func (gmap string pyval)) (reload_func : M W unit)
    (mapping : RulesMapping) (template : gmap string node) (s : state W) :
  mapping_ready mapping template (fs s) →
  rules_writable (_recurse_call_chain alerts_func) template →
  ∃ synced,
    update_alerts_rules alerts_func reload_func mapping s
    = reload_func (log_call CallReloadFunc synced) ∧
    calls synced = calls s ∧ world synced = world s ∧ heap synced = heap s ∧
    unit_status synced = unit_status s ∧
    calls (log_call CallReloadFunc synced) = calls s ++ [CallReloadFunc].
Proof.
  intros Hready Hwritable. eexists. split.
  - by apply update_alerts_rules_run.
  - done.
Qed.

End SyncClaims.

(** ** The machine host keeps its files *)

#[global] Instance machine_host_laws : AgentHostLaws MachineCharm.host.
Proof.
  split.
  - intros path text w w' Hwrite. injection Hwrite as <-.
    cbn. unfold MachineCharm.machine_read_file. cbn.
    by rewrite lookup_insert_eq.
  - intros self path text w r w' Hwrite. injection Hwrite as _ <-. done.
  - intros path w r w' Hrestart. injection Hrestart as _ <-. done.
  - intros self w r w' Hrestart. injection Hrestart as _ <-. done.
Qed.

(** ** The reload request *)

Section ReloadFacts.
Context {W : Type} `{!Http W}.
Variable self : charm.

(** The statuses [_reload_config] asks the adapter to retry on are the
    codes 400 to 451 and 500 to 512. *)
Lemma reload_status_forcelist (code : Z) :
  code ∈ seqZ 400 52 ++ seqZ 500 13 ↔ 400 ≤ code ≤ 451 ∨ 500 ≤ code ≤ 512.
Proof. rewrite elem_of_app, !elem_of_seqZ. lia. Qed.

(** Whatever the session raises is wrapped in a [GrafanaAgentReloadError]
    whose message ends with the description of that failure. *)
Lemma reload_config_wraps (attempts : Z) (s : state W) (e : exn) :
  (_reload_config attempts s).1 = Raise e →
  exn_cls e = GrafanaAgentReloadError ∧
  ∃ cause, exn_str e = "could not reload configuration: " +:+ exn_str cause.
Proof.
  unfold _reload_config, try_except, bind, modify, http_post, raise.
  cbn [world set_status].
  destruct (session_post _ _ _) as [[[]|cause] w']; cbn; [done|].
  intros [= <-]. split; [done|]. by exists cause.
Qed.

End ReloadFacts.

(** ** The claims on concrete inputs *)

(** Witness of C5: a host that is not ready. *)
Lemma update_config_not_ready_witness :
  let s := Examples.start Examples.not_ready in
  unit_status (_update_config Examples.agent s).2
  = WaitingStatus "waiting for agent to start" ∧
  calls (_update_config Examples.agent s).2 = [].
Proof.
  destruct (update_config_not_ready Examples.agent (Examples.start Examples.not_ready))
    as (_ & Hstatus & Hcalls & _).
  - reflexivity.
  - split; [exact Hstatus | exact Hcalls].
Defined.

(** Witness of C7: the restart raises a [GrafanaAgentReloadError]. *)
Lemma update_config_restart_outcome_witness :
  let failure := Exn GrafanaAgentReloadError "could not reload configuration: refused" in
  let s := Examples.start (Examples.restart_fails failure) in
  (_update_config Examples.agent s).1 = Ok tt ∧
  unit_status (_update_config Examples.agent s).2
  = BlockedStatus "could not reload configuration: refused".
Proof.
  set (failure := Exn GrafanaAgentReloadError "could not reload configuration: refused").
  set (s := Examples.start (Examples.restart_fails failure)).
  cbv zeta.
  pose proof (update_config_restart_outcome Examples.agent s VNone
                (write_file CONFIG_PATH
                   (yaml_dump (desired_config Examples.agent (heap s))) (world s)).2
                (write_file CONFIG_PATH
                   (yaml_dump (desired_config Examples.agent (heap s))) (world s)).2
                (Raise failure)) as Houtcome.
  destruct Houtcome as (_ & Hblocked & _).
  - reflexivity.
  - reflexivity.
  - apply desired_config_not_none.
  - reflexivity.
  - reflexivity.
  - apply (Hblocked "could not reload configuration: refused"). reflexivity.
Defined.

(** Witness of C1: the file is missing on the host ([PathError]). *)
Lemma update_config_missing_file_witness :
  let s := Examples.start Examples.missing_config in
  (_update_config Examples.agent s).1 = Ok tt ∧
  unit_status (_update_config Examples.agent s).2 = ActiveStatus ∧
  calls (_update_config Examples.agent s).2
  = [CallGenerateConfig; CallReadFile CONFIG_PATH;
     CallWriteFile CONFIG_PATH
       (yaml_dump (desired_config Examples.agent Examples.records));
     CallRestart].
Proof.
  set (s := Examples.start Examples.missing_config). cbv zeta.
  destruct (update_config_missing_file Examples.agent s
              (Exn PathError "not-found - stat /etc/grafana-agent.yaml"))
    as (_ & _ & _ & Happlied).
  - reflexivity.
  - reflexivity.
  - reflexivity.
  - destruct (Happlied
                (write_file CONFIG_PATH
                   (yaml_dump (desired_config Examples.agent (heap s))) (world s)).2
                (write_file CONFIG_PATH
                   (yaml_dump (desired_config Examples.agent (heap s))) (world s)).2)
      as (Hok & Hstatus & _ & Hcalls); [reflexivity | reflexivity |].
    split; [exact Hok|]. split; [exact Hstatus | exact Hcalls].
Defined.

(** Counterexample of C1: the file is there and its content is not a
    document. The parser's exception leaves [_update_config]; nothing is
    written and the unit status is not assigned. *)
Lemma update_config_unparsable_raises :
  let s := Examples.start Examples.broken_config in
  read_file CONFIG_PATH (world s) = Ok "{'server': " ∧
  (_update_config Examples.agent s).1
  = Raise (Exn YAMLError "could not parse the document") ∧
  calls (_update_config Examples.agent s).2
  = [CallGenerateConfig; CallReadFile CONFIG_PATH] ∧
  unit_status (_update_config Examples.agent s).2 = UnknownStatus.
Proof. cbv zeta. repeat split; vm_compute; reflexivity. Qed.

(** Witness of C3: a machine whose file was written by hand is left alone,
    and a fresh machine is written once. *)
Lemma update_config_idempotent_witness :
  let edited := Examples.start Examples.edited_machine in
  let fresh := Examples.start Examples.fresh_machine in
  calls (_update_config Examples.agent edited).2
  = [CallGenerateConfig; CallReadFile CONFIG_PATH] ∧
  world (_update_config Examples.agent edited).2 = Examples.edited_machine ∧
  ∃ s1 s2,
    _update_config Examples.agent fresh = (Ok tt, s1) ∧
    _update_config Examples.agent s1 = (Ok tt, s2) ∧
    unit_status s1 = ActiveStatus ∧ unit_status s2 = ActiveStatus ∧
    calls s2 = calls s1 ++ [CallGenerateConfig; CallReadFile CONFIG_PATH] ∧
    world s2 = world s1.
Proof.
  cbv zeta.
  destruct (update_config_idempotent Examples.agent
              (Examples.start Examples.edited_machine)) as [Hnoop _];
    [reflexivity|].
  rewrite (Hnoop Examples.hand_written);
    [| reflexivity | apply (bool_decide_unpack _); vm_compute; exact I].
  split; [reflexivity|]. split; [reflexivity|].
  destruct (update_config_idempotent Examples.agent
              (Examples.start Examples.fresh_machine)) as [_ Htwice];
    [reflexivity|].
  destruct (Htwice VNone) as (s1 & s2 & H1 & H2 & Hs1 & Hs2 & _ & Hcalls & Hworld).
  - reflexivity.
  - apply (bool_decide_unpack _). vm_compute. exact I.
  - reflexivity.
  - reflexivity.
  - exists s1, s2. repeat split; assumption.
Defined.

(** Counterexample of C3: on a host that is not ready both passes end in
    [WaitingStatus], not in [ActiveStatus]. *)
Lemma update_config_twice_not_ready :
  let s := Examples.start Examples.not_ready in
  let s1 := (_update_config Examples.agent s).2 in
  let s2 := (_update_config Examples.agent s1).2 in
  unit_status s1 = WaitingStatus "waiting for agent to start" ∧
  unit_status s2 = WaitingStatus "waiting for agent to start" ∧
  unit_status s1 ≠ ActiveStatus ∧ unit_status s2 ≠ ActiveStatus.
Proof. cbv zeta. repeat split; vm_compute; (reflexivity || discriminate). Qed.

(** The identifiers of [Examples.two_groups]. *)
Lemma two_groups_identifiers (identifier : string) :
  is_Some (Examples.two_groups !! identifier) →
  identifier = "lma_1234_a" ∨ identifier = "lma_1234_b".
Proof.
  intros [rule Hrule]. unfold Examples.two_groups in Hrule.
  apply lookup_insert_Some in Hrule as [[<- _]|[_ Hrule]]; [by left|].
  apply lookup_singleton_Some in Hrule as [<- _]. by right.
Qed.

Lemma two_groups_writable : rules_writable Examples.two_groups Examples.template.
Proof.
  intros identifier [-> | ->]%two_groups_identifiers;
    (split; [reflexivity|]); intros entries Hdir; vm_compute in Hdir;
    discriminate.
Qed.

Lemma rules_paths_ready :
  mapping_ready Examples.rules_paths Examples.template Examples.disk.
Proof.
  split; [|split].
  - intros Heq. vm_compute in Heq. discriminate.
  - unfold Examples.disk, Examples.rules_paths. cbn [src].
    apply lookup_insert_eq.
  - eexists. unfold Examples.disk, Examples.rules_paths. cbn [dest].
    rewrite lookup_insert_ne by (intros Heq; vm_compute in Heq; discriminate).
    apply lookup_singleton_eq.
Qed.

(** Witness of C6: two groups are written over a destination that holds a
    stale generated file; the callable that supplies the groups is
    unwrapped first. *)
Lemma update_alerts_rules_destination_witness :
  let alerts_func := Callable (λ _, Real Examples.two_groups) in
  ∃ entries,
    fs (update_alerts_rules alerts_func Examples.announce_reload
          Examples.rules_paths (Examples.on_disk tt)).2
      !! "./prometheus_alert_rules" = Some (Dir entries) ∧
    entries !! "juju_lma_1234_a.rules"
    = Some (File (yaml_dump (Examples.group "a"))) ∧
    entries !! "juju_lma_1234_b.rules"
    = Some (File (yaml_dump (Examples.group "b"))) ∧
    entries !! "README.md" = Some (File "static rules") ∧
    entries !! "juju_stale.rules" = None.
Proof.
  cbv zeta.
  destruct (update_alerts_rules_destination
              (Callable (λ _, Real Examples.two_groups)) Examples.announce_reload
              Examples.rules_paths Examples.template (Examples.on_disk tt))
    as (entries & _ & Hown & Hother & _ & Hresult).
  - exact rules_paths_ready.
  - exact two_groups_writable.
  - exists entries. split; [by apply Hresult|].
    split; [apply (Hown "lma_1234_a"); reflexivity|].
    split; [apply (Hown "lma_1234_b"); reflexivity|].
    split.
    + rewrite Hother; [reflexivity|].
      intros identifier [-> | ->]%two_groups_identifiers Heq;
        vm_compute in Heq; discriminate.
    + rewrite Hother; [reflexivity|].
      intros identifier [-> | ->]%two_groups_identifiers Heq;
        vm_compute in Heq; discriminate.
Defined.

(** Witness of C4: the reload function given to the synchronisation has
    run when it returns. *)
Lemma update_alerts_rules_reloads_witness :
  ∃ synced,
    update_alerts_rules (Real Examples.two_groups) Examples.announce_reload
      Examples.rules_paths (Examples.on_disk tt)
    = Examples.announce_reload (log_call CallReloadFunc synced) ∧
    calls (log_call CallReloadFunc synced) = [CallReloadFunc].
Proof.
  destruct (update_alerts_rules_reloads
              (Real Examples.two_groups) Examples.announce_reload
              Examples.rules_paths Examples.template (Examples.on_disk tt))
    as (synced & Hrun & _ & _ & _ & _ & Hcalls).
  - exact rules_paths_ready.
  - exact two_groups_writable.
  - exists synced. split; [exact Hrun | exact Hcalls].
Defined.

(** Counterexample of C4: after [update_alerts_rules] the call of the
    reload function is on record and the status it assigns is the unit
    status. *)
Lemma update_alerts_rules_invokes_reload :
  let run := update_alerts_rules (Real Examples.two_groups)
               Examples.announce_reload Examples.rules_paths (Examples.on_disk tt) in
  run.1 = Ok tt ∧
  calls run.2 = [CallReloadFunc] ∧
  unit_status (Examples.on_disk tt) = UnknownStatus ∧
  unit_status run.2 = MaintenanceStatus "alert rules reloaded".
Proof. cbv zeta. repeat split; vm_compute; reflexivity. Qed.

(** Synchronising two groups and then only the first one: the file of the
    group that was dropped is gone, the other file and the template file
    are there. *)
Remark resync_drops_group :
  let first := update_alerts_rules (Real Examples.two_groups)
                 Examples.announce_reload Examples.rules_paths (Examples.on_disk tt) in
  let second := update_alerts_rules (Real Examples.one_group)
                  Examples.announce_reload Examples.rules_paths first.2 in
  ∃ before after,
    fs first.2 !! "./prometheus_alert_rules" = Some (Dir before) ∧
    fs second.2 !! "./prometheus_alert_rules" = Some (Dir after) ∧
    is_Some (before !! "juju_lma_1234_b.rules") ∧
    after !! "juju_lma_1234_b.rules" = None ∧
    is_Some (after !! "juju_lma_1234_a.rules") ∧
    after !! "README.md" = Some (File "static rules").
Proof.
  cbv zeta. eexists _, _.
  split; [vm_compute; reflexivity|].
  split; [vm_compute; reflexivity|].
  split; [vm_compute; eexists; reflexivity|].
  split; [vm_compute; reflexivity|].
  split; [vm_compute; eexists; reflexivity|].
  vm_compute; reflexivity.
Qed.

(** * Further properties *)

(** ** Paths and the directories [__init__] prepares *)

Lemma string_app_assoc (a b c : string) : a +:+ b +:+ c = (a +:+ b) +:+ c.
Proof.
  induction a as [|x a IH]; [done|].
  change (String x (a +:+ b +:+ c) = String x ((a +:+ b) +:+ c)).
  by rewrite IH.
Qed.

Lemma path_join_relative (a b : string) :
  starts_with_slash b = false →
  ∃ base, path_join a b = base +:+ b ∧
          ∀ b', starts_with_slash b' = false → path_join a b' = base +:+ b'.
Proof.
  intros Hb. unfold path_join. rewrite Hb.
  destruct (bool_decide (a = "") || ends_with_slash a).
  - exists a. split; [done|]. intros b' ->. done.
  - exists (a +:+ "/"). split; [apply string_app_assoc|].
    intros b' ->. apply string_app_assoc.
Qed.

Lemma init_paths_nodup (charm_dir : string) : NoDup (init_paths charm_dir).
Proof.
  unfold init_paths.
  destruct (path_join_relative charm_dir LOKI_RULES_SRC_PATH eq_refl)
    as (base & _ & Hjoin).
  cbn [src dest loki_rules_paths metrics_rules_paths dashboard_paths].
  rewrite !Hjoin by reflexivity.
  assert (Hne : ∀ b b', b ≠ b' → base +:+ b ≠ base +:+ b').
  { intros b b' Hbb Heq. by apply (inj (String.app base)) in Heq. }
  repeat (apply NoDup_cons; split;
          [ rewrite ?elem_of_cons, elem_of_nil;
            intros Hin; repeat destruct Hin as [Hin|Hin]; try done;
            by apply Hne in Hin
          | ]).
  apply NoDup_nil_2.
Qed.

Section InitFacts.
Context {W : Type}.

Lemma ensure_rules_dir_present (rules : RulesMapping) (old : gmap string node)
    (s : state W) :
  fs s !! dest rules = Some (Dir old) →
  ensure_rules_dir rules s = (Ok tt, s).
Proof. intros Hdest. unfold ensure_rules_dir. by rewrite Hdest. Qed.

Lemma ensure_rules_dir_absent (rules : RulesMapping)
    (template : gmap string node) (s : state W) :
  fs s !! dest rules = None →
  fs s !! src rules = Some (Dir template) →
  ensure_rules_dir rules s
  = (Ok tt, set_fs (<[dest rules := Dir template]> (fs s)) s).
Proof. intros Hdest Hsrc. unfold ensure_rules_dir. by rewrite Hdest, Hsrc. Qed.

End InitFacts.

Lemma nodup_ne {A} (l : list A) (i j : nat) (x y : A) :
  NoDup l → l !! i = Some x → l !! j = Some y → i ≠ j → x ≠ y.
Proof. intros Hnd Hi Hj Hij ->. by apply Hij, (NoDup_lookup l i j y). Qed.

(** X1. Whatever the charm directory is, the six paths [__init__] builds for
    the three mappings are pairwise different: no source is a destination,
    and no two mappings share a directory. *)
Theorem rules_paths_distinct (charm_dir : string) :
  NoDup (init_paths charm_dir) ∧
  src (loki_rules_paths charm_dir) ≠ dest (loki_rules_paths charm_dir) ∧
  src (metrics_rules_paths charm_dir) ≠ dest (metrics_rules_paths charm_dir) ∧
  src (dashboard_paths charm_dir) ≠ dest (dashboard_paths charm_dir).
Proof.
  pose proof (init_paths_nodup charm_dir) as Hnd.
  split; [exact Hnd|].
  split; [|split].
  - by apply (nodup_ne _ 0 1 _ _ Hnd).
  - by apply (nodup_ne _ 2 3 _ _ Hnd).
  - by apply (nodup_ne _ 4 5 _ _ Hnd).
Qed.

Section InitClaims.
Context {W : Type}.

(** One step of the loop of [__init__]. *)
Lemma ensure_rules_dir_run (rules : RulesMapping) (s : state W) :
  src rules ≠ dest rules →
  can_prepare rules (fs s) →
  ∃ f', ensure_rules_dir rules s = (Ok tt, set_fs f' s) ∧
        prepared rules (fs s) f' ∧
        ∀ path, path ≠ dest rules → f' !! path = fs s !! path.
Proof.
  intros Hne [[template Hsrc] [Hdest | [old Hdest]]].
  - exists (<[dest rules := Dir template]> (fs s)).
    split; [by apply ensure_rules_dir_absent|].
    split.
    + exists template. split; [done|]. rewrite Hdest.
      split; [|by rewrite lookup_insert_eq].
      split; [done|]. split; [by rewrite lookup_insert_ne|].
      eexists. by rewrite lookup_insert_eq.
    + intros path Hpath. by rewrite lookup_insert_ne.
  - exists (fs s). rewrite set_fs_same.
    split; [by eapply ensure_rules_dir_present|].
    split; [|done].
    exists template. split; [done|]. rewrite Hdest.
    split; [|done]. split; [done|]. split; [done|]. by exists old.
Qed.

Lemma can_prepare_frame (rules : RulesMapping) (f f' : fs_t) :
  f' !! src rules = f !! src rules →
  f' !! dest rules = f !! dest rules →
  can_prepare rules f → can_prepare rules f'.
Proof. intros Hs Hd. unfold can_prepare. by rewrite Hs, Hd. Qed.

Lemma prepared_frame (rules : RulesMapping) (f f1 f2 : fs_t) :
  f2 !! src rules = f1 !! src rules →
  f2 !! dest rules = f1 !! dest rules →
  prepared rules f f1 → prepared rules f f2.
Proof.
  intros Hs Hd (template & Hsrc & (Hne & Hsrc1 & old & Hdest1) & Hkept).
  exists template. split; [done|]. split.
  - split; [done|]. split; [by rewrite Hs|]. exists old. by rewrite Hd.
  - rewrite Hd. exact Hkept.
Qed.

Lemma prepared_start (rules : RulesMapping) (f0 f f' : fs_t) :
  f !! src rules = f0 !! src rules →
  f !! dest rules = f0 !! dest rules →
  prepared rules f f' → prepared rules f0 f'.
Proof.
  intros Hs Hd (template & Hsrc & Hready & Hkept).
  exists template. rewrite <- Hs, <- Hd. done.
Qed.

(** X2. When the three templates are directories and each destination is
    either missing or a directory, the loop of [__init__] returns and
    leaves every mapping ready for synchronisation: a destination that was
    a directory is kept as it was (its content is not refreshed), a missing
    one becomes a copy of its template, and no other path changes. *)
Theorem init_rules_dirs_prepares (charm_dir : string) (s : state W) :
  let mappings := [ loki_rules_paths charm_dir; metrics_rules_paths charm_dir;
                    dashboard_paths charm_dir ] in
  (∀ rules, rules ∈ mappings → can_prepare rules (fs s)) →
  ∃ f', init_rules_dirs charm_dir s = (Ok tt, set_fs f' s) ∧
        (∀ rules, rules ∈ mappings → prepared rules (fs s) f') ∧
        (∀ path, path ∉ dest <$> mappings → f' !! path = fs s !! path).
Proof.
  intros mappings Hcan.
  pose proof (init_paths_nodup charm_dir) as Hnd.
  set (L := loki_rules_paths charm_dir) in *.
  set (P := metrics_rules_paths charm_dir) in *.
  set (D := dashboard_paths charm_dir) in *.
  assert (HsL : src L ≠ dest L) by by apply (nodup_ne _ 0 1 _ _ Hnd).
  assert (HsP : src P ≠ dest P) by by apply (nodup_ne _ 2 3 _ _ Hnd).
  assert (HsD : src D ≠ dest D) by by apply (nodup_ne _ 4 5 _ _ Hnd).
  assert (HLP : src L ≠ dest P) by by apply (nodup_ne _ 0 3 _ _ Hnd).
  assert (HLD : src L ≠ dest D) by by apply (nodup_ne _ 0 5 _ _ Hnd).
  assert (HPL : src P ≠ dest L) by by apply (nodup_ne _ 2 1 _ _ Hnd).
  assert (HPD : src P ≠ dest D) by by apply (nodup_ne _ 2 5 _ _ Hnd).
  assert (HDL : src D ≠ dest L) by by apply (nodup_ne _ 4 1 _ _ Hnd).
  assert (HDP : src D ≠ dest P) by by apply (nodup_ne _ 4 3 _ _ Hnd).
  assert (HdLP : dest L ≠ dest P) by by apply (nodup_ne _ 1 3 _ _ Hnd).
  assert (HdLD : dest L ≠ dest D) by by apply (nodup_ne _ 1 5 _ _ Hnd).
  assert (HdPD : dest P ≠ dest D) by by apply (nodup_ne _ 3 5 _ _ Hnd).
  destruct (ensure_rules_dir_run L s HsL) as (f1 & Hrun1 & Hprep1 & Hframe1).
  { apply Hcan. apply list_elem_of_here. }
  destruct (ensure_rules_dir_run P (set_fs f1 s) HsP) as (f2 & Hrun2 & Hprep2 & Hframe2).
  { cbn [fs set_fs]. apply (can_prepare_frame P (fs s)); [by apply Hframe1..|].
    apply Hcan. apply list_elem_of_further, list_elem_of_here. }
  destruct (ensure_rules_dir_run D (set_fs f2 s) HsD) as (f3 & Hrun3 & Hprep3 & Hframe3).
  { cbn [fs set_fs]. apply (can_prepare_frame D (fs s)).
    - rewrite Hframe2 by done. cbn [fs set_fs]. by apply Hframe1.
    - rewrite Hframe2 by done. cbn [fs set_fs]. by apply Hframe1.
    - apply Hcan. do 2 apply list_elem_of_further. apply list_elem_of_here. }
  cbn [fs set_fs] in *.
  exists f3. split; [|split].
  - unfold init_rules_dirs. fold L P D. cbn [for_each]. unfold bind.
    rewrite Hrun1, Hrun2. cbn [set_fs world heap fs unit_status calls] in *.
    change (set_fs f2 (set_fs f1 s)) with (set_fs f2 s) in Hrun3.
    unfold set_fs in *. cbn in *. rewrite Hrun3. reflexivity.
  - intros rules Hin. subst mappings.
    apply elem_of_cons in Hin as [-> | Hin]; [|apply elem_of_cons in Hin as [-> | Hin]];
      [| |apply list_elem_of_singleton in Hin as ->].
    + apply (prepared_frame L _ f1); [| |done].
      * rewrite Hframe3 by done. by apply Hframe2.
      * rewrite Hframe3 by done. by apply Hframe2.
    + apply (prepared_start P (fs s) f1); [by apply Hframe1..|].
      apply (prepared_frame P _ f2); [by apply Hframe3..|done].
    + apply (prepared_start D (fs s) f2).
      * rewrite Hframe2 by done. by apply Hframe1.
      * rewrite Hframe2 by done. by apply Hframe1.
      * done.
  - intros path Hpath. subst mappings. cbn in Hpath.
    rewrite !not_elem_of_cons in Hpath. destruct Hpath as (? & ? & ? & _).
    rewrite Hframe3, Hframe2, Hframe1 by done. done.
Qed.

End InitClaims.

(** ** Failures and repetitions of the rule synchronisation *)

Section SyncMore.
Context {W : Type} `{!Yaml}.

(** X3. A synchronisation whose destination does not exist raises
    [FileNotFoundError] from [shutil.rmtree] and changes nothing: no file
    is written and the reload function is not called. *)
Theorem update_alerts_rules_without_destination
    (alerts_func : maybe_func (gmap string pyval)) (reload_func : M W unit)
    (mapping : RulesMapping) (s : state W) :
  fs s !! dest mapping = None →
  update_alerts_rules alerts_func reload_func mapping s
  = (Raise (Exn FileNotFoundError (dest mapping)), s).
Proof.
  intros Hdest. unfold update_alerts_rules, bind, rmtree. by rewrite Hdest.
Qed.

(** X4. A synchronisation whose source template does not exist has already
    removed the destination when [shutil.copytree] raises
    [FileNotFoundError]: the live directory is gone, nothing else changed,
    and the reload function is not called. *)
Theorem update_alerts_rules_without_template
    (alerts_func : maybe_func (gmap string pyval)) (reload_func : M W unit)
    (mapping : RulesMapping) (old : gmap string node) (s : state W) :
  fs s !! dest mapping = Some (Dir old) →
  fs s !! src mapping = None →
  update_alerts_rules alerts_func reload_func mapping s
  = (Raise (Exn FileNotFoundError (src mapping)),
     set_fs (delete (dest mapping) (fs s)) s) ∧
  let s' := (update_alerts_rules alerts_func reload_func mapping s).2 in
  fs s' !! dest mapping = None ∧ calls s' = calls s.
Proof.
  intros Hdest Hsrc.
  assert (Hne : dest mapping ≠ src mapping) by congruence.
  assert (Hrun : update_alerts_rules alerts_func reload_func mapping s
                 = (Raise (Exn FileNotFoundError (src mapping)),
                    set_fs (delete (dest mapping) (fs s)) s)).
  { unfold update_alerts_rules, bind, rmtree, copytree. rewrite Hdest.
    cbn [fs set_fs]. by rewrite lookup_delete_ne, Hsrc. }
  split; [exact Hrun|]. rewrite Hrun. cbn. by rewrite lookup_delete_eq.
Qed.

Lemma mapping_ready_after_sync (mapping : RulesMapping)
    (template entries : gmap string node) (f : fs_t) :
  mapping_ready mapping template f →
  mapping_ready mapping template (<[dest mapping := Dir entries]> f).
Proof.
  intros (Hne & Hsrc & _). split; [done|].
  split; [by rewrite lookup_insert_ne|].
  exists entries. by rewrite lookup_insert_eq.
Qed.

(** X5. A synchronisation touches the destination only: with a reload
    function that leaves the file system alone, every other directory,
    the source template included, is as it was. *)
Theorem update_alerts_rules_frame
    (alerts_func : maybe_func (gmap string pyval)) (reload_func : M W unit)
    (mapping : RulesMapping) (template : gmap string node) (s : state W) :
  mapping_ready mapping template (fs s) →
  rules_writable (_recurse_call_chain alerts_func) template →
  (∀ s0, fs (reload_func s0).2 = fs s0) →
  let s' := (update_alerts_rules alerts_func reload_func mapping s).2 in
  fs s' !! src mapping = Some (Dir template) ∧
  ∀ path, path ≠ dest mapping → fs s' !! path = fs s !! path.
Proof.
  intros Hready Hwritable Hframe.
  rewrite (update_alerts_rules_run _ _ _ template) by done.
  cbv zeta. rewrite Hframe. cbn [fs set_fs log_call].
  destruct Hready as (Hne & Hsrc & _).
  split; [by rewrite lookup_insert_ne|].
  intros path Hpath. by rewrite lookup_insert_ne.
Qed.

(** X6. Synchronising again with the same rules changes nothing: with a
    reload function that leaves the file system alone, the file system
    after the second synchronisation is the one after the first. *)
Theorem update_alerts_rules_twice
    (alerts_func : maybe_func (gmap string pyval)) (reload_func : M W unit)
    (mapping : RulesMapping) (template : gmap string node) (s : state W) :
  mapping_ready mapping template (fs s) →
  rules_writable (_recurse_call_chain alerts_func) template →
  (∀ s0, fs (reload_func s0).2 = fs s0) →
  let s1 := (update_alerts_rules alerts_func reload_func mapping s).2 in
  let s2 := (update_alerts_rules alerts_func reload_func mapping s1).2 in
  fs s2 = fs s1.
Proof.
  intros Hready Hwritable Hframe. cbv zeta.
  assert (H1 : fs (update_alerts_rules alerts_func reload_func mapping s).2
               = <[dest mapping :=
                     Dir (written_rules (_recurse_call_chain alerts_func) template)]>
                   (fs s)).
  { rewrite (update_alerts_rules_run _ _ _ template) by done.
    by rewrite Hframe. }
  rewrite (update_alerts_rules_run _ _ _ template);
    [| rewrite H1; by apply mapping_ready_after_sync | done ].
  rewrite Hframe. cbn [fs set_fs log_call]. rewrite H1.
  by rewrite insert_insert_eq.
Qed.

Lemma recurse_call_chain_wrapped {A} (n : nat) (inner : maybe_func A) :
  _recurse_call_chain (wrapped n inner) = _recurse_call_chain inner.
Proof. induction n as [|n IH]; [done|]. cbn. exact IH. Qed.

(** X7. However many zero-argument callables wrap the rules,
    [_recurse_call_chain] unwraps them all, and a synchronisation given the
    wrapped rules is the synchronisation given the rules themselves. *)
Theorem update_alerts_rules_unwraps (n : nat) (rules : gmap string pyval)
    (reload_func : M W unit) (mapping : RulesMapping) (s : state W) :
  _recurse_call_chain (wrapped n (Real rules)) = rules ∧
  update_alerts_rules (wrapped n (Real rules)) reload_func mapping s
  = update_alerts_rules (Real rules) reload_func mapping s.
Proof.
  split; [apply (recurse_call_chain_wrapped n (Real rules))|].
  unfold update_alerts_rules.
  by rewrite (recurse_call_chain_wrapped n (Real rules)).
Qed.

End SyncMore.


(** ** Dashboards *)

Section DashboardFacts.
Context {W : Type} `{!Yaml} `{!PyFormat}.

Lemma write_dashboard_run (mapping : RulesMapping) (dash : gmap string pyval)
    (content : pyval) (entries : gmap string node) (s : state W) :
  dash !! "content" = Some content →
  fs s !! dest mapping = Some (Dir entries) →
  (∀ sub, entries !! dashboard_file_name dash ≠ Some (Dir sub)) →
  write_dashboard mapping dash s
  = (Ok tt, set_fs (<[dest mapping := Dir (dashboard_item entries dash)]> (fs s)) s).
Proof.
  intros Hcontent Hdir Hentry.
  unfold write_dashboard, bind, dict_getitem, dashboard_item.
  rewrite Hcontent. cbn [ret default].
  by apply write_text_run.
Qed.

Lemma write_dashboard_without_content (mapping : RulesMapping)
    (dash : gmap string pyval) (s : state W) :
  dash !! "content" = None →
  write_dashboard mapping dash s = (Raise (Exn KeyError (py_repr "content")), s).
Proof.
  intros Hcontent. unfold write_dashboard, bind, dict_getitem.
  by rewrite Hcontent.
Qed.

Lemma lookup_dashboard_items_other (dashboards : list (gmap string pyval)) :
  ∀ (entries : gmap string node) (name : string),
    (∀ dash, dash ∈ dashboards → dashboard_file_name dash ≠ name) →
    foldl dashboard_item entries dashboards !! name = entries !! name.
Proof.
  induction dashboards as [|dash dashboards IH]; intros entries name Hother; [done|].
  cbn [foldl]. rewrite IH.
  - unfold dashboard_item. rewrite lookup_insert_ne; [done|].
    apply Hother, list_elem_of_here.
  - intros dash' Hin. by apply Hother, list_elem_of_further.
Qed.

Lemma lookup_dashboard_items_not_dir (dashboards : list (gmap string pyval)) :
  ∀ (entries : gmap string node) (name : string),
    (∀ sub, entries !! name ≠ Some (Dir sub)) →
    ∀ sub, foldl dashboard_item entries dashboards !! name ≠ Some (Dir sub).
Proof.
  induction dashboards as [|dash dashboards IH]; intros entries name Hentry; [done|].
  cbn [foldl]. apply IH. intros sub. unfold dashboard_item.
  destruct (decide (dashboard_file_name dash = name)) as [<-|Hne].
  - by rewrite lookup_insert_eq.
  - by rewrite lookup_insert_ne.
Qed.

Lemma for_each_write_dashboard (mapping : RulesMapping)
    (dashboards : list (gmap string pyval)) :
  ∀ (entries : gmap string node) (s : state W),
    Forall (λ dash, is_Some (dash !! "content")) dashboards →
    fs s !! dest mapping = Some (Dir entries) →
    dashboards_writable dashboards entries →
    for_each dashboards (write_dashboard mapping) s
    = (Ok tt,
       set_fs (<[dest mapping := Dir (foldl dashboard_item entries dashboards)]> (fs s)) s).
Proof.
  induction dashboards as [|dash dashboards IH]; intros entries s Hall Hdir Hwritable.
  - cbn. by rewrite insert_id, set_fs_same.
  - apply Forall_cons in Hall as [[content Hcontent] Hall].
    cbn [for_each foldl]. unfold bind.
    rewrite (write_dashboard_run _ _ content entries); [|done..|].
    2: { intros sub. apply Hwritable, list_elem_of_here. }
    rewrite (IH (dashboard_item entries dash)).
    + cbn [fs set_fs]. by rewrite insert_insert_eq.
    + done.
    + cbn [fs set_fs]. by rewrite lookup_insert_eq.
    + intros dash' sub Hin.
      apply (lookup_dashboard_items_not_dir [dash]).
      intros sub'. by apply Hwritable, list_elem_of_further.
Qed.

Lemma for_each_write_dashboard_stops (mapping : RulesMapping)
    (written : list (gmap string pyval)) (dash : gmap string pyval)
    (rest : list (gmap string pyval)) (entries : gmap string node) (s : state W) :
  Forall (λ dash, is_Some (dash !! "content")) written →
  dash !! "content" = None →
  fs s !! dest mapping = Some (Dir entries) →
  dashboards_writable written entries →
  for_each (written ++ dash :: rest) (write_dashboard mapping) s
  = (Raise (Exn KeyError (py_repr "content")),
     set_fs (<[dest mapping := Dir (foldl dashboard_item entries written)]> (fs s)) s).
Proof.
  revert entries s.
  induction written as [|first written IH]; intros entries s Hall Hmissing Hdir Hwritable.
  - cbn [app for_each foldl]. unfold bind.
    rewrite write_dashboard_without_content by done.
    by rewrite insert_id, set_fs_same.
  - apply Forall_cons in Hall as [[content Hcontent] Hall].
    cbn [app for_each foldl]. unfold bind.
    rewrite (write_dashboard_run _ _ content entries); [|done..|].
    2: { intros sub. apply Hwritable, list_elem_of_here. }
    rewrite (IH (dashboard_item entries first)).
    + cbn [fs set_fs]. by rewrite insert_insert_eq.
    + done.
    + done.
    + cbn [fs set_fs]. by rewrite lookup_insert_eq.
    + intros dash' sub Hin.
      apply (lookup_dashboard_items_not_dir [first]).
      intros sub'. by apply Hwritable, list_elem_of_further.
Qed.

Lemma update_dashboards_prefix (dashboards : list (gmap string pyval))
    (reload_func : M W unit) (mapping : RulesMapping)
    (template : gmap string node) (s : state W) :
  mapping_ready mapping template (fs s) →
  update_dashboards dashboards reload_func mapping s
  = ((for_each dashboards (write_dashboard mapping) ;;;
      modify (log_call CallReloadFunc) ;;; reload_func)
       (set_fs (<[dest mapping := Dir template]> (delete (dest mapping) (fs s))) s)).
Proof.
  intros (Hne & Hsrc & old & Hdest).
  unfold update_dashboards.
  unfold bind at 1. unfold rmtree. rewrite Hdest.
  unfold bind at 1. unfold copytree. cbn [fs set_fs].
  rewrite lookup_delete_ne by done. by rewrite Hsrc, lookup_delete_eq.
Qed.

(** X8. When a dashboard has no ["content"], [update_dashboards] raises
    [KeyError] at that dashboard: the destination has already been
    replaced by the template and holds the files of the dashboards before
    it, no later dashboard is written, and the reload function is not
    called. *)
Theorem update_dashboards_without_content
    (written : list (gmap string pyval)) (dash : gmap string pyval)
    (rest : list (gmap string pyval)) (reload_func : M W unit)
    (mapping : RulesMapping) (template : gmap string node) (s : state W) :
  mapping_ready mapping template (fs s) →
  Forall (λ dash, is_Some (dash !! "content")) written →
  dashboards_writable written template →
  dash !! "content" = None →
  update_dashboards (written ++ dash :: rest) reload_func mapping s
  = (Raise (Exn KeyError (py_repr "content")),
     set_fs (<[dest mapping := Dir (foldl dashboard_item template written)]> (fs s)) s) ∧
  calls (update_dashboards (written ++ dash :: rest) reload_func mapping s).2
  = calls s.
Proof.
  intros Hready Hall Hwritable Hmissing.
  assert (Hrun : update_dashboards (written ++ dash :: rest) reload_func mapping s
    = (Raise (Exn KeyError (py_repr "content")),
       set_fs (<[dest mapping := Dir (foldl dashboard_item template written)]> (fs s)) s)).
  { rewrite (update_dashboards_prefix _ _ _ template) by done.
    unfold bind at 1.
    rewrite (for_each_write_dashboard_stops _ _ _ _ template); try done.
    - cbn [fs set_fs]. by rewrite insert_insert_eq, insert_delete_eq.
    - cbn [fs set_fs]. by rewrite lookup_insert_eq. }
  split; [exact Hrun|]. by rewrite Hrun.
Qed.

(** X9. When every dashboard has a content, [update_dashboards] writes one
    file per dashboard over the copy of the template and then calls the
    reload function. The file of a dashboard is named after the one-element
    tuple of its identifier, [juju_(<repr>,).rules], and when several
    dashboards have the same charm and relation id the last one is the one
    on disk. *)
Theorem update_dashboards_last_wins
    (dashboards : list (gmap string pyval)) (reload_func : M W unit)
    (mapping : RulesMapping) (template : gmap string node) (s : state W) :
  mapping_ready mapping template (fs s) →
  Forall (λ dash, is_Some (dash !! "content")) dashboards →
  dashboards_writable dashboards template →
  ∃ entries,
    update_dashboards dashboards reload_func mapping s
    = reload_func
        (log_call CallReloadFunc
           (set_fs (<[dest mapping := Dir entries]> (fs s)) s)) ∧
    (∀ before dash after content,
       dashboards = before ++ dash :: after →
       dash !! "content" = Some content →
       (∀ later, later ∈ after → dashboard_file_name later ≠ dashboard_file_name dash) →
       entries !! ("juju_(" +:+ py_repr (dashboard_identifier dash) +:+ ",).rules")
       = Some (File (yaml_dump content))) ∧
    (∀ name, (∀ dash, dash ∈ dashboards → dashboard_file_name dash ≠ name) →
       entries !! name = template !! name).
Proof.
  intros Hready Hall Hwritable.
  exists (foldl dashboard_item template dashboards).
  split; [|split].
  - rewrite (update_dashboards_prefix _ _ _ template) by done.
    unfold bind at 1.
    rewrite (for_each_write_dashboard _ _ template); try done.
    + unfold bind, modify. cbn [fs set_fs].
      by rewrite insert_insert_eq, insert_delete_eq.
    + cbn [fs set_fs]. by rewrite lookup_insert_eq.
  - intros before dash after content -> Hcontent Hlast.
    assert (Hname : "juju_(" +:+ py_repr (dashboard_identifier dash) +:+ ",).rules"
                    = dashboard_file_name dash).
    { unfold dashboard_file_name.
      by rewrite <- !string_app_assoc. }
    rewrite Hname, foldl_app. cbn [foldl].
    rewrite lookup_dashboard_items_other by done.
    unfold dashboard_item. by rewrite lookup_insert_eq, Hcontent.
  - intros name Hother. by apply lookup_dashboard_items_other.
Qed.

Lemma write_dashboard_calls (mapping : RulesMapping) (dash : gmap string pyval)
    (s : state W) :
  calls (write_dashboard mapping dash s).2 = calls s.
Proof.
  unfold write_dashboard, bind, dict_getitem, write_text.
  destruct (dash !! "content") as [content|]; [|done]. cbn [ret].
  destruct (fs s !! dest mapping) as [[text|entries]|]; [done| |done].
  by destruct (entries !! dashboard_file_name dash) as [[text|sub]|].
Qed.

Lemma for_each_write_dashboard_calls (mapping : RulesMapping)
    (dashboards : list (gmap string pyval)) :
  ∀ s : state W, calls (for_each dashboards (write_dashboard mapping) s).2 = calls s.
Proof.
  induction dashboards as [|dash dashboards IH]; intros s; [done|].
  cbn [for_each]. unfold bind.
  pose proof (write_dashboard_calls mapping dash s) as Hstep.
  destruct (write_dashboard mapping dash s) as [[[]|e] s1]; [|done].
  cbn [snd] in Hstep. by rewrite IH.
Qed.

(** X10. [update_dashboards] has no silent way out: the property
    [self.dashboards] is read before it is entered, so an exception of the
    property (the [NotImplementedError] of the base class, for one) leaves
    [_update_grafana_dashboards] with nothing removed, written or reloaded,
    and whenever [_update_grafana_dashboards] returns normally the reload
    function has been called after the pass over the directory. *)
Theorem update_grafana_dashboards_never_silent
    (dashboards : result (list (gmap string pyval))) (reload_func : M W unit)
    (charm_dir : string) (s : state W) :
  (∀ s0, ∃ more, calls (reload_func s0).2 = calls s0 ++ more) →
  let run := _update_grafana_dashboards dashboards reload_func charm_dir s in
  (∀ e, dashboards = Raise e → run = (Raise e, s)) ∧
  (run.1 = Ok tt →
   ∃ more, calls run.2 = calls s ++ [CallReloadFunc] ++ more).
Proof.
  intros Hreload. cbv zeta. split.
  { intros e ->. reflexivity. }
  destruct dashboards as [dashboards|e]; [|done].
  destruct (_update_grafana_dashboards (Ok dashboards) reload_func charm_dir s)
    as [r s'] eqn:Hrun.
  cbn [fst snd]. intros ->.
  unfold _update_grafana_dashboards, lift_result, update_dashboards in Hrun.
  unfold bind at 1 in Hrun. unfold bind at 1 in Hrun. unfold rmtree in Hrun.
  destruct (fs s !! dest (dashboard_paths charm_dir)) as [[text|old]|];
    [done| |done].
  unfold bind at 1 in Hrun. unfold copytree in Hrun. cbn [fs set_fs] in Hrun.
  destruct (delete _ (fs s) !! src (dashboard_paths charm_dir)) as [[text|template]|];
    [done| |done].
  destruct (delete _ (fs s) !! dest (dashboard_paths charm_dir)); [done|].
  unfold bind at 1 in Hrun.
  match type of Hrun with
  | context [for_each dashboards ?body ?s0] =>
      pose proof (for_each_write_dashboard_calls (dashboard_paths charm_dir)
                    dashboards s0) as Hcalls;
      destruct (for_each dashboards body s0) as [[[]|e] s1]; [|done]
  end.
  cbn [snd calls set_fs] in Hcalls.
  unfold bind, modify in Hrun.
  destruct (Hreload (log_call CallReloadFunc s1)) as [more Hmore].
  rewrite Hrun in Hmore. cbn [snd calls log_call] in Hmore.
  exists more. rewrite Hmore, Hcalls. by rewrite <- app_assoc.
Qed.

End DashboardFacts.

(** ** Failures of a reconciliation pass *)

Section PassFailures.
Context {W : Type} `{!Yaml} `{!AgentHost W}.
Variable self : charm.

Lemma update_config_applies (s : state W) (old_config : pyval) :
  is_ready self (world s) = true →
  persisted_config (world s) = Ok old_config →
  desired_config self (heap s) ≠ old_config →
  _update_config self s
  = let text := yaml_dump (desired_config self (heap s)) in
    let '(written, w1) := write_file CONFIG_PATH text (world s) in
    let s1 := set_world w1 (log_call (CallWriteFile CONFIG_PATH text) (compared self s)) in
    match written with
    | Raise e => on_apply_error e s1
    | Ok _ =>
        let '(restarted, w2) := restart w1 in
        let s2 := set_world w2 (log_call CallRestart s1) in
        match restarted with
        | Raise e => on_apply_error e s2
        | Ok _ => (Ok tt, set_status ActiveStatus s2)
        end
    end.
Proof.
  intros Hready Hold Hne.
  rewrite (update_config_ready self s Hready), Hold.
  rewrite bool_decide_eq_false_2 by done.
  by rewrite apply_config_run.
Qed.

Lemma update_config_unchanged (s : state W) :
  is_ready self (world s) = true →
  persisted_config (world s) = Ok (desired_config self (heap s)) →
  _update_config self s = (Ok tt, set_status ActiveStatus (compared self s)).
Proof.
  intros Hready Hold. rewrite (update_config_ready self s Hready), Hold.
  by rewrite bool_decide_eq_true_2.
Qed.

(** X11. When [write_file] raises, [restart] is not called. An [APIError]
    ends the pass normally in [WaitingStatus] with its message, a
    [GrafanaAgentReloadError] in [BlockedStatus] with its message, and any
    other exception leaves [_update_config] with the status untouched. *)
Theorem update_config_write_fails (s : state W) (old_config : pyval)
    (e : exn) (w1 : W) :
  is_ready self (world s) = true →
  persisted_config (world s) = Ok old_config →
  desired_config self (heap s) ≠ old_config →
  write_file CONFIG_PATH (yaml_dump (desired_config self (heap s))) (world s)
  = (Raise e, w1) →
  let run := _update_config self s in
  calls run.2
  = calls s ++ [CallGenerateConfig; CallReadFile CONFIG_PATH;
                CallWriteFile CONFIG_PATH (yaml_dump (desired_config self (heap s)))] ∧
  run.1 = (if is_reload_or_api_error e then Ok tt else Raise e) ∧
  unit_status run.2
  = match exn_cls e with
    | GrafanaAgentReloadError => BlockedStatus (exn_str e)
    | APIError => WaitingStatus (exn_str e)
    | _ => unit_status s
    end.
Proof.
  intros Hready Hold Hne Hwrite. cbv zeta.
  rewrite (update_config_applies s old_config) by done.
  cbv zeta. rewrite Hwrite.
  unfold on_apply_error, is_reload_or_api_error.
  destruct (exn_cls e); cbn; by rewrite <- !app_assoc.
Qed.

(** X12. There is no rollback: when [restart] raises an exception that is
    neither a [GrafanaAgentReloadError] nor an [APIError], the exception
    leaves [_update_config], the unit status is not assigned, and the new
    config stays written on the host. *)
Theorem update_config_restart_raises_other (s : state W) (old_config : pyval)
    (e : exn) (w1 w2 : W) :
  is_ready self (world s) = true →
  persisted_config (world s) = Ok old_config →
  desired_config self (heap s) ≠ old_config →
  write_file CONFIG_PATH (yaml_dump (desired_config self (heap s))) (world s)
  = (Ok tt, w1) →
  restart w1 = (Raise e, w2) →
  is_reload_or_api_error e = false →
  let run := _update_config self s in
  run.1 = Raise e ∧ unit_status run.2 = unit_status s ∧ world run.2 = w2 ∧
  calls run.2
  = calls s ++ [CallGenerateConfig; CallReadFile CONFIG_PATH;
                CallWriteFile CONFIG_PATH (yaml_dump (desired_config self (heap s)));
                CallRestart].
Proof.
  intros Hready Hold Hne Hwrite Hrestart Hother. cbv zeta.
  rewrite (update_config_applies s old_config) by done.
  cbv zeta. rewrite Hwrite, Hrestart.
  unfold on_apply_error. unfold is_reload_or_api_error in Hother.
  destruct (exn_cls e); try done; cbn; by rewrite <- !app_assoc.
Qed.

(** X13. Only a missing file is forgiven when the persisted config is
    read: any other exception of [read_file], and any exception of the
    parser, leaves [_update_config] after synthesis and the read, with
    nothing written, no restart and the status untouched. *)
Theorem update_config_read_raises (s : state W) (e : exn) :
  is_ready self (world s) = true →
  is_missing_file e = false →
  read_file CONFIG_PATH (world s) = Raise e ∨
  (∃ text, read_file CONFIG_PATH (world s) = Ok text ∧
           yaml_safe_load text = Raise e) →
  let run := _update_config self s in
  run.1 = Raise e ∧ unit_status run.2 = unit_status s ∧ world run.2 = world s ∧
  calls run.2 = calls s ++ [CallGenerateConfig; CallReadFile CONFIG_PATH].
Proof.
  intros Hready Hclass Hraise. cbv zeta.
  assert (Hold : persisted_config (world s) = Raise e).
  { unfold persisted_config.
    destruct Hraise as [-> | (text & -> & ->)]; by rewrite Hclass. }
  rewrite (update_config_ready self s Hready), Hold. cbn.
  by rewrite <- !app_assoc.
Qed.

Lemma apply_error_calls (e : exn) (s : state W) :
  calls (on_apply_error e s).2 = calls s.
Proof. unfold on_apply_error. by destruct (exn_cls e). Qed.

(** X14. The desired config is a dictionary, so a persisted document that
    is anything else (the [None] of an empty file, a list, a scalar) never
    compares equal: the pass goes on to call [write_file] with the
    serialised desired config. *)
Theorem update_config_over_other_document (s : state W) (old_config : pyval) :
  is_ready self (world s) = true →
  persisted_config (world s) = Ok old_config →
  (∀ m, old_config ≠ VDict m) →
  ∃ rest,
    calls (_update_config self s).2
    = calls s ++ [CallGenerateConfig; CallReadFile CONFIG_PATH;
                  CallWriteFile CONFIG_PATH
                    (yaml_dump (desired_config self (heap s)))] ++ rest.
Proof.
  intros Hready Hold Hother.
  assert (Hne : desired_config self (heap s) ≠ old_config).
  { destruct (desired_config_is_dict self (heap s)) as [m ->].
    intros Heq. by apply (Hother m). }
  rewrite (update_config_applies s old_config) by done. cbv zeta.
  destruct (write_file _ _ _) as [[[]|e1] w1].
  - destruct (restart w1) as [[[]|e2] w2].
    + exists [CallRestart]. cbn. by rewrite <- !app_assoc.
    + exists [CallRestart]. rewrite apply_error_calls. cbn.
      by rewrite <- !app_assoc.
  - exists []. rewrite apply_error_calls. cbn. by rewrite <- !app_assoc.
Qed.

(** X15. A failed restart is not retried. When the config was written and
    [restart] raised a [GrafanaAgentReloadError] or an [APIError], the
    pass ends in [BlockedStatus] or [WaitingStatus]; the next pass with
    unchanged inputs finds the file up to date, calls neither [write_file]
    nor [restart], and ends in [ActiveStatus]. *)
Theorem update_config_forgets_failed_restart `{!AgentHostLaws W}
    (s : state W) (old_config : pyval) (e : exn) (w1 w2 : W) :
  is_ready self (world s) = true →
  persisted_config (world s) = Ok old_config →
  let desired := desired_config self (heap s) in
  desired ≠ old_config →
  yaml_safe_load (yaml_dump desired) = Ok desired →
  write_file CONFIG_PATH (yaml_dump desired) (world s) = (Ok tt, w1) →
  restart w1 = (Raise e, w2) →
  is_reload_or_api_error e = true →
  let s1 := (_update_config self s).2 in
  let s2 := (_update_config self s1).2 in
  unit_status s1
  = (if bool_decide (exn_cls e = GrafanaAgentReloadError)
     then BlockedStatus (exn_str e) else WaitingStatus (exn_str e)) ∧
  (_update_config self s1).1 = Ok tt ∧
  unit_status s2 = ActiveStatus ∧
  calls s2 = calls s1 ++ [CallGenerateConfig; CallReadFile CONFIG_PATH] ∧
  world s2 = world s1.
Proof.
  intros Hready Hold desired Hne Hround Hwrite Hrestart Hclass. cbv zeta.
  rewrite (update_config_applies s old_config) by done.
  cbv zeta. fold desired. rewrite Hwrite, Hrestart.
  set (s1 := (on_apply_error e _).2).
  assert (Hs1 : world s1 = w2 ∧
                heap s1 = enrich_heap self (endpoints self) (heap s) ∧
                unit_status s1
                = (if bool_decide (exn_cls e = GrafanaAgentReloadError)
                   then BlockedStatus (exn_str e) else WaitingStatus (exn_str e))).
  { subst s1. unfold on_apply_error. unfold is_reload_or_api_error in Hclass.
    destruct (exn_cls e); try done; cbn; done. }
  destruct Hs1 as (Hworld & Hheap & Hstatus).
  split; [exact Hstatus|].
  rewrite (update_config_unchanged s1).
  - cbn. by rewrite <- !app_assoc.
  - rewrite Hworld.
    rewrite (ready_after_restart self w1 _ w2 Hrestart).
    by rewrite (ready_after_write self _ _ (world s) _ w1 Hwrite).
  - rewrite Hworld, Hheap, desired_config_enriched. fold desired.
    unfold persisted_config.
    rewrite (read_after_restart CONFIG_PATH w1 _ w2 Hrestart).
    rewrite (read_after_write CONFIG_PATH _ (world s) w1 Hwrite).
    by rewrite Hround.
Qed.

End PassFailures.

(** ** Event handlers *)

Section HandlerFacts.
Context {W : Type} `{!Yaml} `{!AgentHost W}.
Variable self : charm.

Lemma update_status_run (s : state W) :
  is_Some (relations self !! REMOTE_WRITE_RELATION_NAME) →
  _update_status self s = (Ok tt, set_status ActiveStatus s).
Proof.
  intros [remote_write Hrw].
  unfold _update_status, bind, host_is_ready, gets, modify, ret, relations_getitem.
  rewrite Hrw.
  destruct (relations self !! "metrics-endpoint") as [rels|]; cycle 1.
  { by destruct (is_ready self (world s)). }
  destruct (truthy rels); cycle 1.
  { by destruct (is_ready self (world s)). }
  destruct (bool_decide (length rels ≠ 0%nat)); cycle 1.
  { by destruct (is_ready self (world s)). }
  cbn. destruct (bool_decide (length remote_write = 0%nat)); cbn;
    by destruct (is_ready self (world s)).
Qed.

(** X16. In [on_remote_write_changed] and [on_scrape_targets_changed]
    the status [_update_config] reports does not last: whenever
    [_update_config] returns, be it with [BlockedStatus] after a failed
    restart or with [WaitingStatus] on a host that is not ready,
    [_update_status] replaces it by [ActiveStatus] before the alert rules
    are synchronised. *)
Theorem remote_write_changed_masks_status (charm_dir : string)
    (metrics_rules : maybe_func (gmap string pyval)) (reload_alerts : M W unit)
    (s : state W) :
  is_Some (relations self !! REMOTE_WRITE_RELATION_NAME) →
  (_update_config self s).1 = Ok tt →
  let updated := set_status ActiveStatus (_update_config self s).2 in
  on_remote_write_changed self charm_dir metrics_rules reload_alerts s
  = _update_metrics_alerts charm_dir metrics_rules reload_alerts updated ∧
  on_scrape_targets_changed self charm_dir metrics_rules reload_alerts s
  = _update_metrics_alerts charm_dir metrics_rules reload_alerts updated.
Proof.
  intros Hdeclared Hok. cbv zeta.
  unfold on_remote_write_changed, on_scrape_targets_changed.
  unfold bind at 1 3.
  destruct (_update_config self s) as [[[]|e] s1]; [|done].
  unfold bind. by rewrite update_status_run.
Qed.

End HandlerFacts.

(** ** Sections of the synthesised document *)

Section DocumentFacts.
Context {W : Type}.
Variable self : charm.

(** X17. The key ["logs"] is always in the synthesised document. Its
    value is the empty dictionary when there are neither log endpoints nor
    additional log configs; otherwise it is [{"configs": [...]}] whose
    list is the push server first, when there are log endpoints, followed
    by the additional log configs in their order. *)
Theorem generate_config_logs (s : state W) :
  ∃ config s',
    _generate_config self s = (Ok config, s') ∧
    let logs := py_get "logs" (snapshot (heap s') config) in
    (loki_endpoints self = [] → _additional_log_configs self = [] →
       logs = Some (VDict ∅)) ∧
    (loki_endpoints self = [] → _additional_log_configs self ≠ [] →
       logs = Some (VDict {[ "configs" := VList (_additional_log_configs self) ]})) ∧
    (loki_endpoints self ≠ [] →
       ∃ server,
         py_get "name" server = Some (VStr "push_api_server") ∧
         logs = Some (VDict {[ "configs" :=
                                 VList (server :: _additional_log_configs self) ]})).
Proof.
  eexists _, _. split; [apply generate_config_run|].
  cbn [heap set_heap log_call].
  set (h := enrich_heap self (endpoints self) (heap s)).
  assert (Hextra : snapshot h <$> (OVal <$> _additional_log_configs self)
                   = _additional_log_configs self).
  { rewrite <- list_fmap_compose. apply list_fmap_id. }
  assert (Hlogs : py_get "logs" (snapshot h (generated_document self))
                  = Some (snapshot h (loki_conf self (loki_endpoints self)))).
  { unfold generated_document, config_document.
    rewrite py_get_snapshot. by lookup_literal. }
  cbv zeta. rewrite Hlogs. unfold loki_conf, loki_configs.
  split; [|split].
  - intros -> ->. cbn. by rewrite fmap_empty.
  - intros -> Hsome. cbn [truthy app].
    destruct (_additional_log_configs self) as [|extra extras] eqn:He; [done|].
    cbn [fmap list_fmap truthy]. cbn [snapshot]. f_equal. f_equal.
    rewrite map_fmap_singleton. cbn [snapshot]. f_equal. f_equal.
    rewrite <- He in Hextra. rewrite He in Hextra. exact Hextra.
  - intros Hsome.
    destruct (loki_endpoints self) as [|l ls] eqn:Hl; [done|].
    cbn [truthy app]. cbn [snapshot].
    exists (snapshot h (push_api_server (l :: ls))). split.
    + unfold push_api_server. rewrite py_get_snapshot. by lookup_literal.
    + f_equal. f_equal. rewrite map_fmap_singleton. cbn [snapshot].
      f_equal. f_equal. cbn [fmap list_fmap]. f_equal. exact Hextra.
Qed.

(** X18. In the integrations of the synthesised document the additional
    integrations win: every key they define has their value, ["agent"] and
    ["prometheus_remote_write"] included, and without such a key ["agent"]
    is the self-monitoring block with [enabled] set. The integrations have
    no other keys. *)
Theorem generate_config_integrations (s : state W) :
  ∃ config s' integrations,
    _generate_config self s = (Ok config, s') ∧
    py_get "integrations" (snapshot (heap s') config) = Some (VDict integrations) ∧
    (∀ key value, _additional_integrations self !! key = Some value →
       integrations !! key = Some value) ∧
    (_additional_integrations self !! "agent" = None →
       ∃ agent, integrations !! "agent" = Some agent ∧
                py_get "enabled" agent = Some (VBool true)) ∧
    (∀ key, _additional_integrations self !! key = None →
       key ≠ "agent" → key ≠ "prometheus_remote_write" →
       integrations !! key = None).
Proof.
  eexists _, _, _. split; [apply generate_config_run|].
  cbn [heap set_heap log_call].
  set (h := enrich_heap self (endpoints self) (heap s)).
  split.
  { unfold generated_document, config_document.
    rewrite py_get_snapshot. lookup_literal. reflexivity. }
  split; [|split].
  - intros key value Hkey. rewrite lookup_fmap.
    rewrite (lookup_union_Some_l _ _ key (OVal value)); [reflexivity|].
    by rewrite lookup_fmap, Hkey.
  - intros Hfree. eexists. rewrite lookup_fmap.
    rewrite lookup_union_r by (by rewrite lookup_fmap, Hfree).
    unfold integrations_own. lookup_literal. split; [reflexivity|].
    cbn [snapshot]. unfold agent_integration.
    rewrite py_get_dict. by lookup_literal.
  - intros key Hfree Hagent Hrw. rewrite lookup_fmap.
    rewrite lookup_union_r by (by rewrite lookup_fmap, Hfree).
    unfold integrations_own. by lookup_literal.
Qed.

(** X19. [_enrich_endpoints] returns the two lists of the providers as
    they are and replaces the [tls_config] of every record in them by a
    dictionary with the single key [insecure_skip_verify]: whatever TLS
    settings a record came with are gone, and when the option
    [tls_insecure_skip_verify] is not set the value written is [None]. *)
Theorem enrich_endpoints_overwrites (s : state W) (l : loc)
    (record : gmap string pyval) :
  l ∈ endpoints self →
  heap s !! l = Some record →
  let run := _enrich_endpoints self s in
  run.1 = Ok (remote_write_endpoints self, loki_endpoints self) ∧
  ∃ record',
    heap run.2 !! l = Some record' ∧
    record' !! "tls_config"
    = Some (VDict {[ "insecure_skip_verify" :=
                       default VNone (model_config self !! "tls_insecure_skip_verify") ]}) ∧
    (model_config self !! "tls_insecure_skip_verify" = None →
       insecure_skip_verify (VDict record') = Some VNone) ∧
    ∀ key, key ≠ "tls_config" → record' !! key = record !! key.
Proof.
  intros Hin Hrecord. cbv zeta. rewrite enrich_endpoints_run.
  split; [reflexivity|].
  exists (set_tls_config self record). cbn [snd heap set_heap].
  split; [by rewrite lookup_enrich_heap, bool_decide_eq_true_2, Hrecord|].
  split; [apply lookup_set_tls_config|].
  split.
  - intros Hunset. unfold insecure_skip_verify.
    rewrite py_get_dict, lookup_set_tls_config. option_steps.
    rewrite py_get_dict, lookup_singleton_eq.
    unfold tls_insecure_skip_verify. by rewrite Hunset.
  - intros key Hkey. by apply lookup_set_tls_config_ne.
Qed.

End DocumentFacts.

(** ** The reload request *)

Section ReloadClaims.
Context {W : Type} `{!Http W}.

(** X20. [_reload_config] posts once through a session whose retry policy
    has [total = attempts] and forces a retry on exactly the status codes
    400 to 451 and 500 to 512. When the post returns, [_reload_config]
    returns and the unit status stays [MaintenanceStatus]: it is not set
    back. When the post raises, whatever the exception, a
    [GrafanaAgentReloadError] is raised whose message is the fixed prefix
    followed by the text of that exception. *)
Theorem reload_config_outcome (attempts : Z) (s : state W) :
  ∃ retries,
    total retries = attempts ∧
    (∀ code, code ∈ status_forcelist retries
             ↔ 400 ≤ code ≤ 451 ∨ 500 ≤ code ≤ 512) ∧
    let '(posted, w') := session_post retries "http://localhost/-/reload" (world s) in
    let s' := set_world w'
                (log_call (CallPost "http://localhost/-/reload")
                   (set_status (MaintenanceStatus "reloading agent configuration") s)) in
    _reload_config attempts s
    = match posted with
      | Ok _ => (Ok tt, s')
      | Raise e =>
          (Raise (Exn GrafanaAgentReloadError
                    ("could not reload configuration: " +:+ exn_str e)), s')
      end ∧
    unit_status s' = MaintenanceStatus "reloading agent configuration".
Proof.
  exists {| total := attempts; backoff_factor := (1 # 10)%Q;
            status_forcelist := seqZ 400 52 ++ seqZ 500 13 |}.
  split; [reflexivity|]. split.
  { intros code. cbn [status_forcelist].
    rewrite elem_of_app, !elem_of_seqZ. lia. }
  unfold _reload_config, try_except, bind, modify, http_post, raise.
  cbn [world set_status status_forcelist total].
  destruct (session_post _ _ _) as [[[]|e] w']; by split.
Qed.

End ReloadClaims.

(** ** The version of the agent *)

Lemma all_digits_cons (c : ascii) (s : string) :
  all_digits (String c s) = is_digit c && all_digits s.
Proof. reflexivity. Qed.

Lemma all_digits_app (a b : string) :
  all_digits (a +:+ b) = all_digits a && all_digits b.
Proof.
  induction a as [|c a IH]; [done|].
  change (String c a +:+ b) with (String c (a +:+ b)).
  rewrite !all_digits_cons, IH. by rewrite andb_assoc.
Qed.

Lemma span_digits_sound (s digits after : string) :
  span_digits s = (digits, after) →
  s = digits +:+ after ∧ all_digits digits = true ∧ no_digit_ahead after = true.
Proof.
  revert digits after. induction s as [|c s IH]; intros digits after Hspan.
  - cbn in Hspan. by injection Hspan as <- <-.
  - cbn [span_digits] in Hspan. destruct (is_digit c) eqn:Hc.
    + destruct (span_digits s) as [digits' after'].
      injection Hspan as <- <-.
      destruct (IH digits' after' eq_refl) as (-> & Hdigits & Hafter).
      split; [done|]. by rewrite all_digits_cons, Hc, Hdigits.
    + injection Hspan as <- <-. split; [done|]. split; [done|].
      cbn. by rewrite Hc.
Qed.

Lemma span_digits_complete (digits after : string) :
  all_digits digits = true → no_digit_ahead after = true →
  span_digits (digits +:+ after) = (digits, after).
Proof.
  intros Hdigits Hafter. induction digits as [|c digits IH].
  - change ("" +:+ after) with after. destruct after as [|c after]; [done|].
    cbn in Hafter. cbn [span_digits]. by destruct (is_digit c).
  - change (String c digits +:+ after) with (String c (digits +:+ after)).
    rewrite all_digits_cons in Hdigits.
    apply andb_true_iff in Hdigits as [Hc Hdigits].
    cbn [span_digits]. by rewrite Hc, IH.
Qed.

Lemma match_version_sound (s version : string) :
  match_version s = Some version →
  ∃ major minor patch after,
    s = version +:+ after ∧
    version = major +:+ "." +:+ minor +:+ "." +:+ patch ∧
    all_digits major = true ∧ all_digits minor = true ∧ all_digits patch = true.
Proof.
  unfold match_version. intros Hmatch.
  destruct (span_digits s) as [major r1] eqn:H1.
  apply span_digits_sound in H1 as (-> & Hmajor & _).
  destruct r1 as [|c1 r1]; [done|].
  destruct (decide (c1 = "."%char)) as [->|Hc1];
    [|by destruct c1 as [[] [] [] [] [] [] [] []]].
  destruct (span_digits r1) as [minor r2] eqn:H2.
  apply span_digits_sound in H2 as (-> & Hminor & _).
  destruct r2 as [|c2 r2]; [done|].
  destruct (decide (c2 = "."%char)) as [->|Hc2];
    [|by destruct c2 as [[] [] [] [] [] [] [] []]].
  destruct (span_digits r2) as [patch r3] eqn:H3.
  apply span_digits_sound in H3 as (-> & Hpatch & _).
  injection Hmatch as <-.
  exists major, minor, patch, r3. split; [|done].
  rewrite <- !string_app_assoc. reflexivity.
Qed.

Lemma match_version_complete (major minor patch after : string) :
  all_digits major = true → all_digits minor = true → all_digits patch = true →
  no_digit_ahead after = true →
  match_version (major +:+ "." +:+ minor +:+ "." +:+ patch +:+ after)
  = Some (major +:+ "." +:+ minor +:+ "." +:+ patch).
Proof.
  intros Hmajor Hminor Hpatch Hafter. unfold match_version.
  rewrite (span_digits_complete major) by done.
  change ("." +:+ minor +:+ "." +:+ patch +:+ after)
    with (String "." (minor +:+ "." +:+ patch +:+ after)).
  cbv beta iota.
  rewrite (span_digits_complete minor) by done.
  change ("." +:+ patch +:+ after) with (String "." (patch +:+ after)).
  cbv beta iota.
  by rewrite (span_digits_complete patch).
Qed.

Lemma search_version_sound (output version : string) :
  search_version output = Some version →
  ∃ before major minor patch after,
    output = before +:+ "v" +:+ version +:+ after ∧
    version = major +:+ "." +:+ minor +:+ "." +:+ patch ∧
    all_digits major = true ∧ all_digits minor = true ∧ all_digits patch = true.
Proof.
  induction output as [|c output IH]; [done|].
  cbn [search_version]. intros Hsearch.
  destruct (if bool_decide (c = "v"%char) then match_version output else None)
    as [found|] eqn:Hhere.
  - injection Hsearch as ->. case_bool_decide as Hc; [|done]. subst c.
    apply match_version_sound in Hhere
      as (major & minor & patch & after & -> & Hshape & Hdigits).
    exists "", major, minor, patch, after. done.
  - destruct (IH Hsearch)
      as (before & major & minor & patch & after & -> & Hshape & Hdigits).
    exists (String c before), major, minor, patch, after. done.
Qed.

Lemma search_version_complete (before rest version : string) :
  no_version_start before = true →
  match_version rest = Some version →
  search_version (before +:+ "v" +:+ rest) = Some version.
Proof.
  intros Hbefore Hmatch. induction before as [|c before IH].
  - change ("" +:+ "v" +:+ rest) with (String "v" rest).
    cbn [search_version]. by rewrite bool_decide_eq_true_2, Hmatch.
  - change (String c before +:+ "v" +:+ rest)
      with (String c (before +:+ "v" +:+ rest)).
    cbn [no_version_start] in Hbefore.
    apply andb_true_iff in Hbefore as [Hc Hbefore].
    cbn [search_version]. rewrite IH by done.
    case_bool_decide as Hv; [|done].
    destruct before as [|d before]; [done|].
    apply andb_true_iff in Hc as [Hdigit Hdot].
    change (String d before +:+ "v" +:+ rest)
      with (String d (before +:+ "v" +:+ rest)).
    unfold match_version. cbn [span_digits].
    apply negb_true_iff in Hdigit. rewrite Hdigit.
    apply negb_true_iff, bool_decide_eq_false in Hdot.
    by destruct d as [[] [] [] [] [] [] [] []].
Qed.

Section VersionClaims.
Context {W : Type} `{!AgentHost W} `{!AgentBinary W}.

(** X21. [_agent_version] answers only on a ready host, and what it
    answers is cut out of the output of [agent -version]: the text that
    follows a letter [v] there, made of three runs of digits separated by
    two dots and of nothing else. *)
Theorem agent_version_sound (self : charm) (w : W) (version : string) :
  _agent_version self w = Some version →
  is_ready self w = true ∧
  ∃ before major minor patch after,
    agent_version_output w = before +:+ "v" +:+ version +:+ after ∧
    version = major +:+ "." +:+ minor +:+ "." +:+ patch ∧
    all_digits major = true ∧ all_digits minor = true ∧ all_digits patch = true.
Proof.
  unfold _agent_version. destruct (is_ready self w); [|done]. cbn [negb].
  intros Hversion. split; [done|].
  apply search_version_sound.
  by destruct (search_version (agent_version_output w)).
Qed.

(** X22. On a ready host whose [agent -version] prints a version
    [v<major>.<minor>.<patch>] that is not followed by a digit, after a
    text in which no [v] is followed by a digit or a dot (or ends the
    text), [_agent_version] is [<major>.<minor>.<patch>]; the runs of
    digits may be empty. On a host that is not ready it is [None]. *)
Theorem agent_version_extracts (self : charm) (w : W)
    (before major minor patch after : string) :
  agent_version_output w
  = before +:+ "v" +:+ (major +:+ "." +:+ minor +:+ "." +:+ patch +:+ after) →
  no_version_start before = true →
  all_digits major = true → all_digits minor = true → all_digits patch = true →
  no_digit_ahead after = true →
  _agent_version self w
  = if is_ready self w then Some (major +:+ "." +:+ minor +:+ "." +:+ patch)
    else None.
Proof.
  intros Houtput Hbefore Hmajor Hminor Hpatch Hafter.
  unfold _agent_version. destruct (is_ready self w); [|done]. cbn [negb].
  rewrite Houtput.
  rewrite (search_version_complete before _
             (major +:+ "." +:+ minor +:+ "." +:+ patch)); [done|done|].
  by apply match_version_complete.
Qed.

End VersionClaims.

(** ** The machine charm *)

(** X23. The machine charm is ready exactly when the snap is listed and
    the first [juju-info] relation has a unit, which is then the
    principal unit: a unit of a later relation does not count. *)
Theorem machine_is_ready_iff (self : charm) (w : MachineCharm.host) :
  is_ready self w = true
  ↔ MachineCharm.snap_listed w = true ∧
    ∃ first others unit more,
      relations self !! "juju-info" = Some (first :: others) ∧
      units first = unit :: more ∧
      MachineCharm.principal_unit self = Some unit.
Proof.
  cbn. unfold MachineCharm.machine_is_ready, MachineCharm._is_installed,
    MachineCharm.principal_unit, MachineCharm._principal_relation.
  split.
  - intros Hready. apply andb_true_iff in Hready as [Hlisted Hunit].
    apply bool_decide_eq_true in Hunit as [unit Hunit].
    split; [by destruct (MachineCharm.snap_listed w)|].
    destruct (relations self !! "juju-info") as [[|first others]|]; [done| |done].
    destruct (units first) as [|unit' more] eqn:Hunits; [done|].
    injection Hunit as <-. by exists first, others, unit', more.
  - intros (-> & first & others & unit & more & -> & Hunits & _).
    rewrite Hunits. reflexivity.
Qed.

Section LabelClaims.
Variable self : charm.
Variable app_of_unit : string → string.

(** X24. The relabelling config of the machine charm follows its labels:
    it has one entry per label, in the order of the labels, whose target
    is the label and whose replacement is the value of the label, the
    first being [instance]. Without a principal unit the only entry
    rewrites [instance] to the empty string. *)
Theorem principal_relabeling_follows_labels :
  let config := MachineLabels._principal_relabeling_config self app_of_unit in
  let labels := MachineLabels._principal_labels self app_of_unit in
  py_get "target_label" <$> config = (λ label, Some (VStr label.1)) <$> labels ∧
  py_get "replacement" <$> config = (λ label, Some (VStr label.2)) <$> labels ∧
  (MachineCharm.principal_unit self = None →
     config = [relabel_default "instance" ""]) ∧
  (∀ unit, MachineCharm.principal_unit self = Some unit →
     labels = [ ("instance",
                 model_name self +:+ "_" +:+ model_uuid self +:+ "_"
                   +:+ app_of_unit unit +:+ "_" +:+ unit);
                ("juju_model", model_name self);
                ("juju_model_uuid", model_uuid self);
                ("juju_application", app_of_unit unit);
                ("juju_unit", unit) ]).
Proof.
  cbv zeta.
  unfold MachineLabels._principal_relabeling_config, MachineLabels._principal_labels,
    MachineLabels._instance_name.
  assert (Hdefault : ∀ k v, py_get "target_label" (relabel_default k v) = Some (VStr k)
                            ∧ py_get "replacement" (relabel_default k v) = Some (VStr v)).
  { intros k v. unfold relabel_default. rewrite !py_get_dict.
    split; by lookup_literal. }
  assert (Haddress : ∀ k v, py_get "target_label" (relabel_address k v) = Some (VStr k)
                            ∧ py_get "replacement" (relabel_address k v) = Some (VStr v)).
  { intros k v. unfold relabel_address. rewrite !py_get_dict.
    split; by lookup_literal. }
  split; [|split; [|split]].
  - cbn [app fmap list_fmap fst].
    rewrite (proj1 (Hdefault _ _)). f_equal.
    rewrite <- list_fmap_compose. apply list_fmap_ext.
    intros i [k v] _. apply (proj1 (Haddress k v)).
  - cbn [app fmap list_fmap snd].
    rewrite (proj2 (Hdefault _ _)). f_equal.
    rewrite <- list_fmap_compose. apply list_fmap_ext.
    intros i [k v] _. apply (proj2 (Haddress k v)).
  - unfold MachineLabels._principal_topology. by intros ->.
  - unfold MachineLabels._principal_topology. intros unit ->. reflexivity.
Qed.

End LabelClaims.

Section LifecycleClaims.
Context `{!SnapCommands}.

(** X25. [on_install] runs the install command only when the snap is not
    listed, and it returns exactly when the snap is listed afterwards;
    otherwise it raises the install error. The status it leaves is the
    maintenance status it set first, also when the snap was there
    already. *)
Theorem on_install_outcome (s : state MachineCharm.host) :
  let run := MachineLifecycle.on_install s in
  unit_status run.2 = MaintenanceStatus "Installing grafana-agent snap" ∧
  (run.1 = Ok tt ↔ MachineCharm._is_installed (world run.2) = true) ∧
  (run.1 ≠ Ok tt →
     run.1 = Raise (Exn OtherException "Failed to install grafana-agent.")) ∧
  world run.2
  = (if MachineCharm._is_installed (world s) then world s
     else snap_install (world s)).
Proof.
  cbv zeta.
  unfold MachineLifecycle.on_install, MachineLifecycle.is_installed,
    MachineLifecycle.run, MachineLifecycle.raise_install_error,
    bind, modify, gets, raise, ret.
  cbn [world set_status set_world].
  destruct (MachineCharm._is_installed (world s)) eqn:Hbefore; cbn.
  - repeat split; try done.
  - destruct (MachineCharm._is_installed (snap_install (world s))) eqn:Hafter; cbn.
    + repeat split; try done.
    + rewrite Hafter. repeat split; try done.
Qed.

(** X26. [on_remove] always runs the remove command and returns exactly
    when the snap is no longer listed afterwards; otherwise it raises the
    uninstall error. *)
Theorem on_remove_outcome (s : state MachineCharm.host) :
  let run := MachineLifecycle.on_remove s in
  unit_status run.2 = MaintenanceStatus "Uninstalling grafana-agent snap" ∧
  world run.2 = snap_remove (world s) ∧
  (run.1 = Ok tt ↔ MachineCharm._is_installed (world run.2) = false) ∧
  (run.1 ≠ Ok tt →
     run.1 = Raise (Exn OtherException "Failed to uninstall grafana-agent")).
Proof.
  cbv zeta.
  unfold MachineLifecycle.on_remove, MachineLifecycle.is_installed,
    MachineLifecycle.run, MachineLifecycle.raise_install_error,
    bind, modify, gets, raise, ret.
  cbn [world set_status set_world].
  destruct (MachineCharm._is_installed (snap_remove (world s))) eqn:Hafter; cbn;
    rewrite ?Hafter; repeat split; try done.
Qed.

End LifecycleClaims.

(** ** The further properties on concrete inputs *)

#[global] Instance scripted_host_laws : AgentHostLaws ScriptedHost.host.
Proof.
  split.
  - intros path text w w' Hwrite. cbn in Hwrite.
    unfold ScriptedHost.scripted_write_file in Hwrite.
    destruct (ScriptedHost.write_answer w) as [[]|e]; [|done].
    by injection Hwrite as <-.
  - intros self path text w r w' Hwrite. cbn in Hwrite.
    unfold ScriptedHost.scripted_write_file in Hwrite.
    destruct (ScriptedHost.write_answer w) as [[]|e];
      by injection Hwrite as _ <-.
  - intros path w r w' Hrestart. by injection Hrestart as _ <-.
  - intros self w r w' Hrestart. by injection Hrestart as _ <-.
Qed.

(** Witness of X2: a deployed charm directory in which the metrics
    destination is left from an earlier run. *)
Lemma init_rules_dirs_prepares_witness :
  ∃ f', init_rules_dirs "/charm" (MoreExamples.deployed_state tt)
        = (Ok tt, set_fs f' (MoreExamples.deployed_state tt)) ∧
        prepared (metrics_rules_paths "/charm") MoreExamples.deployed f' ∧
        prepared (loki_rules_paths "/charm") MoreExamples.deployed f'.
Proof.
  destruct (init_rules_dirs_prepares "/charm" (MoreExamples.deployed_state tt))
    as (f' & Hrun & Hprepared & _).
  - intros rules Hin.
    apply elem_of_cons in Hin as [-> | Hin];
      [|apply elem_of_cons in Hin as [-> | Hin]];
      [| |apply list_elem_of_singleton in Hin as ->].
    + split; [eexists; vm_compute; reflexivity|]. left. vm_compute. reflexivity.
    + split; [eexists; vm_compute; reflexivity|].
      right. eexists. vm_compute. reflexivity.
    + split; [eexists; vm_compute; reflexivity|]. left. vm_compute. reflexivity.
  - exists f'. split; [exact Hrun|]. split.
    + apply Hprepared. apply list_elem_of_further, list_elem_of_here.
    + apply Hprepared. apply list_elem_of_here.
Defined.

(** Witness of X3: nothing is on disk. *)
Lemma update_alerts_rules_without_destination_witness :
  update_alerts_rules (Real Examples.two_groups) Examples.announce_reload
    Examples.rules_paths (Examples.start tt)
  = (Raise (Exn FileNotFoundError "./prometheus_alert_rules"), Examples.start tt).
Proof.
  apply (update_alerts_rules_without_destination
           (Real Examples.two_groups) Examples.announce_reload
           Examples.rules_paths (Examples.start tt)).
  reflexivity.
Defined.

(** Witness of X4: the destination is there, the template is not. *)
Lemma update_alerts_rules_without_template_witness :
  let s := State tt ∅ {[ "./prometheus_alert_rules" := Dir Examples.template ]}
             UnknownStatus [] in
  let s' := (update_alerts_rules (Real Examples.two_groups) Examples.announce_reload
               Examples.rules_paths s).2 in
  fs s' !! "./prometheus_alert_rules" = None ∧ calls s' = [].
Proof.
  cbv zeta.
  apply (update_alerts_rules_without_template
           (Real Examples.two_groups) Examples.announce_reload
           Examples.rules_paths Examples.template).
  - apply lookup_singleton_eq.
  - apply lookup_singleton_ne. intros Heq. vm_compute in Heq. discriminate.
Defined.

(** Witness of X5. *)
Lemma update_alerts_rules_frame_witness :
  let s' := (update_alerts_rules (Real Examples.two_groups) Examples.announce_reload
               Examples.rules_paths (Examples.on_disk tt)).2 in
  fs s' !! "./src/prometheus_alert_rules" = Some (Dir Examples.template).
Proof.
  cbv zeta.
  destruct (update_alerts_rules_frame
              (Real Examples.two_groups) Examples.announce_reload
              Examples.rules_paths Examples.template (Examples.on_disk tt))
    as [Hsrc _].
  - exact rules_paths_ready.
  - exact two_groups_writable.
  - reflexivity.
  - exact Hsrc.
Defined.

(** Witness of X6. *)
Lemma update_alerts_rules_twice_witness :
  let s1 := (update_alerts_rules (Real Examples.two_groups) Examples.announce_reload
               Examples.rules_paths (Examples.on_disk tt)).2 in
  let s2 := (update_alerts_rules (Real Examples.two_groups) Examples.announce_reload
               Examples.rules_paths s1).2 in
  fs s2 = fs s1.
Proof.
  cbv zeta.
  apply (update_alerts_rules_twice
           (Real Examples.two_groups) Examples.announce_reload
           Examples.rules_paths Examples.template (Examples.on_disk tt)).
  - exact rules_paths_ready.
  - exact two_groups_writable.
  - reflexivity.
Defined.

Lemma dashboards_over_template (dashboards : list (gmap string pyval)) :
  Forall (λ dash, bool_decide (dashboard_file_name dash ≠ "README.md")) dashboards →
  dashboards_writable dashboards Examples.template.
Proof.
  intros Hall dash entries Hin Hdir.
  rewrite Forall_forall in Hall. specialize (Hall dash Hin).
  apply bool_decide_unpack in Hall.
  unfold Examples.template in Hdir.
  by rewrite lookup_singleton_ne in Hdir.
Qed.

(** Witness of X8: the second of three dashboards has no content. *)
Lemma update_dashboards_without_content_witness :
  let dashboards := [ MoreExamples.dashboard "loki" 7 "logs";
                      MoreExamples.dashboard_without_content;
                      MoreExamples.dashboard "prometheus" 9 "metrics" ] in
  let run := update_dashboards dashboards Examples.announce_reload
               Examples.rules_paths (Examples.on_disk tt) in
  run.1 = Raise (Exn KeyError "'content'") ∧ calls run.2 = [].
Proof.
  cbv zeta.
  destruct (update_dashboards_without_content
              [MoreExamples.dashboard "loki" 7 "logs"]
              MoreExamples.dashboard_without_content
              [MoreExamples.dashboard "prometheus" 9 "metrics"]
              Examples.announce_reload Examples.rules_paths Examples.template
              (Examples.on_disk tt)) as [Hrun Hcalls].
  - exact rules_paths_ready.
  - repeat constructor. by eexists.
  - apply dashboards_over_template. by repeat constructor.
  - reflexivity.
  - split; [|exact Hcalls]. cbn [app] in Hrun. by rewrite Hrun.
Defined.

(** Witness of X9: two dashboards of the same charm and relation. *)
Lemma update_dashboards_last_wins_witness :
  let dashboards := [ MoreExamples.dashboard "loki" 7 "first";
                      MoreExamples.dashboard "loki" 7 "second" ] in
  ∃ entries,
    update_dashboards dashboards Examples.announce_reload
      Examples.rules_paths (Examples.on_disk tt)
    = Examples.announce_reload
        (log_call CallReloadFunc
           (set_fs (<[dest Examples.rules_paths := Dir entries]> Examples.disk)
              (Examples.on_disk tt))) ∧
    entries !! "juju_('loki-7',).rules"
    = Some (File (yaml_dump (VDict {[ "title" := VStr "second" ]}))).
Proof.
  cbv zeta.
  destruct (update_dashboards_last_wins
              [ MoreExamples.dashboard "loki" 7 "first";
                MoreExamples.dashboard "loki" 7 "second" ]
              Examples.announce_reload Examples.rules_paths Examples.template
              (Examples.on_disk tt)) as (entries & Hrun & Hlast & _).
  - exact rules_paths_ready.
  - repeat constructor; by eexists.
  - apply dashboards_over_template. by repeat constructor.
  - exists entries. split; [exact Hrun|].
    apply (Hlast [MoreExamples.dashboard "loki" 7 "first"]
                 (MoreExamples.dashboard "loki" 7 "second") []).
    + reflexivity.
    + reflexivity.
    + intros later Hin. by apply elem_of_nil in Hin.
Defined.

(** Witness of X10. *)
Lemma update_grafana_dashboards_never_silent_witness :
  let failure := Exn OtherException "Please override the dashboards method" in
  _update_grafana_dashboards (Raise failure) Examples.announce_reload "/charm"
    (MoreExamples.deployed_state tt)
  = (Raise failure, MoreExamples.deployed_state tt).
Proof.
  cbv zeta.
  apply (update_grafana_dashboards_never_silent
           (Raise (Exn OtherException "Please override the dashboards method"))
           Examples.announce_reload "/charm" (MoreExamples.deployed_state tt)).
  - intros s0. exists []. cbn. by rewrite app_nil_r.
  - reflexivity.
Defined.

(** Witness of X11: [write_file] raises an [APIError]. *)
Lemma update_config_write_fails_witness :
  let s := Examples.start (MoreExamples.write_fails (Exn APIError "connection refused")) in
  (_update_config Examples.agent s).1 = Ok tt ∧
  unit_status (_update_config Examples.agent s).2 = WaitingStatus "connection refused".
Proof.
  set (e := Exn APIError "connection refused").
  set (s := Examples.start (MoreExamples.write_fails e)). cbv zeta.
  destruct (update_config_write_fails Examples.agent s VNone e (world s))
    as (_ & Hresult & Hstatus).
  - reflexivity.
  - reflexivity.
  - apply desired_config_not_none.
  - reflexivity.
  - split; [exact Hresult | exact Hstatus].
Defined.

(** Witness of X12: [restart] raises something else. *)
Lemma update_config_restart_raises_other_witness :
  let e := Exn OtherException "sudo: command not found" in
  let s := Examples.start (Examples.restart_fails e) in
  (_update_config Examples.agent s).1 = Raise e ∧
  unit_status (_update_config Examples.agent s).2 = UnknownStatus ∧
  ScriptedHost.stored (world (_update_config Examples.agent s).2)
  = Ok (yaml_dump (desired_config Examples.agent Examples.records)).
Proof.
  set (e := Exn OtherException "sudo: command not found").
  set (s := Examples.start (Examples.restart_fails e)). cbv zeta.
  destruct (update_config_restart_raises_other Examples.agent s VNone e
              (write_file CONFIG_PATH
                 (yaml_dump (desired_config Examples.agent (heap s))) (world s)).2
              (write_file CONFIG_PATH
                 (yaml_dump (desired_config Examples.agent (heap s))) (world s)).2)
    as (Hresult & Hstatus & Hworld & _).
  - reflexivity.
  - reflexivity.
  - apply desired_config_not_none.
  - reflexivity.
  - reflexivity.
  - reflexivity.
  - split; [exact Hresult|]. split; [exact Hstatus|].
    etrans; [exact (f_equal ScriptedHost.stored Hworld) | reflexivity].
Defined.

(** Witness of X13: the file cannot be read. *)
Lemma update_config_read_raises_witness :
  let e := Exn OtherException "[Errno 13] Permission denied" in
  let s := Examples.start (MoreExamples.unreadable e) in
  (_update_config Examples.agent s).1 = Raise e ∧
  calls (_update_config Examples.agent s).2
  = [CallGenerateConfig; CallReadFile CONFIG_PATH].
Proof.
  set (e := Exn OtherException "[Errno 13] Permission denied").
  set (s := Examples.start (MoreExamples.unreadable e)). cbv zeta.
  destruct (update_config_read_raises Examples.agent s e)
    as (Hresult & _ & _ & Hcalls).
  - reflexivity.
  - reflexivity.
  - by left.
  - split; [exact Hresult | exact Hcalls].
Defined.

(** Witness of X14: the file is empty, which loads as [None]. *)
Lemma update_config_over_other_document_witness :
  let s := Examples.start MoreExamples.empty_file in
  ∃ rest,
    calls (_update_config Examples.agent s).2
    = [CallGenerateConfig; CallReadFile CONFIG_PATH;
       CallWriteFile CONFIG_PATH
         (yaml_dump (desired_config Examples.agent Examples.records))] ++ rest.
Proof.
  cbv zeta.
  apply (update_config_over_other_document Examples.agent
           (Examples.start MoreExamples.empty_file) VNone).
  - reflexivity.
  - reflexivity.
  - done.
Defined.

(** Witness of X15: the restart fails once; the next pass reports
    [ActiveStatus]. *)
Lemma update_config_forgets_failed_restart_witness :
  let e := Exn GrafanaAgentReloadError "could not reload configuration: refused" in
  let s := Examples.start (Examples.restart_fails e) in
  let s1 := (_update_config Examples.agent s).2 in
  let s2 := (_update_config Examples.agent s1).2 in
  unit_status s1 = BlockedStatus "could not reload configuration: refused" ∧
  unit_status s2 = ActiveStatus ∧
  calls s2 = calls s1 ++ [CallGenerateConfig; CallReadFile CONFIG_PATH].
Proof.
  set (e := Exn GrafanaAgentReloadError "could not reload configuration: refused").
  set (s := Examples.start (Examples.restart_fails e)). cbv zeta.
  destruct (update_config_forgets_failed_restart Examples.agent s VNone e
              (write_file CONFIG_PATH
                 (yaml_dump (desired_config Examples.agent (heap s))) (world s)).2
              (write_file CONFIG_PATH
                 (yaml_dump (desired_config Examples.agent (heap s))) (world s)).2)
    as (Hfirst & _ & Hsecond & Hcalls & _).
  - reflexivity.
  - reflexivity.
  - apply desired_config_not_none.
  - apply (bool_decide_unpack _). vm_compute. exact I.
  - reflexivity.
  - reflexivity.
  - reflexivity.
  - split; [exact Hfirst|]. split; [exact Hsecond | exact Hcalls].
Defined.

(** Witness of X16: the restart fails, and the handler goes on with
    [ActiveStatus]. *)
Lemma remote_write_changed_masks_status_witness :
  let e := Exn GrafanaAgentReloadError "could not reload configuration: refused" in
  let s := Examples.start (Examples.restart_fails e) in
  unit_status (_update_config Examples.agent s).2
  = BlockedStatus "could not reload configuration: refused" ∧
  on_remote_write_changed Examples.agent "/charm" (Real Examples.two_groups)
    Examples.announce_reload s
  = _update_metrics_alerts "/charm" (Real Examples.two_groups)
      Examples.announce_reload
      (set_status ActiveStatus (_update_config Examples.agent s).2).
Proof.
  set (e := Exn GrafanaAgentReloadError "could not reload configuration: refused").
  set (s := Examples.start (Examples.restart_fails e)). cbv zeta.
  split; [reflexivity|].
  apply (remote_write_changed_masks_status Examples.agent "/charm"
           (Real Examples.two_groups) Examples.announce_reload s).
  - eexists. reflexivity.
  - reflexivity.
Defined.

(** Witness of X19: a record that came with a CA file, and no option. *)
Lemma enrich_endpoints_overwrites_witness :
  let s := State tt MoreExamples.with_tls_settings ∅ UnknownStatus [] in
  ∃ record',
    heap (_enrich_endpoints MoreExamples.no_flag s).2 !! 0%nat = Some record' ∧
    record' !! "tls_config" = Some (VDict {[ "insecure_skip_verify" := VNone ]}).
Proof.
  cbv zeta.
  destruct (enrich_endpoints_overwrites MoreExamples.no_flag
              (State tt MoreExamples.with_tls_settings ∅ UnknownStatus []) 0%nat
              {[ "url" := VStr "https://prom-0/api/v1/write";
                 "tls_config" := VDict {[ "ca_file" := VStr "/etc/ssl/ca.pem" ]} ]})
    as (_ & record' & Hrecord & Htls & _).
  - apply list_elem_of_here.
  - reflexivity.
  - exists record'. split; [exact Hrecord | exact Htls].
Defined.

(** Witness of X21 and of X22: the line the source quotes. *)
Lemma agent_version_sound_witness :
  is_ready Examples.agent Examples.fresh_machine = true ∧
  ∃ before after,
    MoreExamples.version_line = before +:+ "v" +:+ "0.26.1" +:+ after.
Proof.
  destruct (agent_version_sound Examples.agent Examples.fresh_machine "0.26.1")
    as (Hready & before & major & minor & patch & after & Houtput & _).
  - reflexivity.
  - split; [exact Hready|]. exists before, after. exact Houtput.
Defined.

Lemma agent_version_extracts_witness :
  _agent_version Examples.agent Examples.fresh_machine = Some "0.26.1" ∧
  _agent_version Examples.agent MoreExamples.bare_machine = None.
Proof.
  split.
  - refine (agent_version_extracts Examples.agent Examples.fresh_machine
              "agent, version " "0" "26" "1"
              " (branch: HEAD, revision: 2b88be37)" _ _ _ _ _ _); reflexivity.
  - refine (agent_version_extracts Examples.agent MoreExamples.bare_machine
              "agent, version " "0" "26" "1"
              " (branch: HEAD, revision: 2b88be37)" _ _ _ _ _ _); reflexivity.
Defined.
